(** * qulacs [setup.py]: the CMake build orchestration, embedded and verified

    The development embeds the decision-making part of [setup.py]:
    the CPU-count probe [_get_n_cpus], the argument generation
    [CMakeBuild._generate_args], the per-target driver
    [CMakeBuild.build_extension] and the entry point [CMakeBuild.run].

    Python values are modelled as the code has them: [str] as [string],
    [None]-able values as [option], [os.environ] as a finite map, argument
    lists as [list string].  Subprocess calls and exceptions are threaded
    through a small state-and-error monad whose state is the log of the
    subprocess invocations made so far. *)

From Stdlib Require Import ZArith Ascii String List Bool Lia.
From stdpp Require Import base gmap strings list.

Local Open Scope string_scope.
Local Open Scope list_scope.

(** ** Python primitives used by [setup.py] *)

Module Py.

(** Truth value of a [str]: only the empty string is falsy. *)
Definition truthy (s : string) : bool :=
  match s with
  | EmptyString => false
  | String _ _ => true
  end.

(** Truth value of an [Optional[str]]: [None] and [""] are falsy. *)
Definition truthy_opt (o : option string) : bool :=
  match o with
  | None => false
  | Some s => truthy s
  end.

(** [sep.join(xs)]. *)
Fixpoint join (sep : string) (xs : list string) : string :=
  match xs with
  | [] => ""
  | [x] => x
  | x :: rest => x +:+ sep +:+ join sep rest
  end.

(** [str.upper] on the ASCII range. *)
Definition upper_ascii (c : ascii) : ascii :=
  let n := nat_of_ascii c in
  if (97 <=? n)%nat && (n <=? 122)%nat then ascii_of_nat (n - 32) else c.

Fixpoint upper (s : string) : string :=
  match s with
  | EmptyString => EmptyString
  | String c r => String (upper_ascii c) (upper r)
  end.

(** ASCII whitespace as [bytes.strip] understands it:
    space, tab, newline, vertical tab, form feed, carriage return. *)
Definition is_space (c : ascii) : bool :=
  let n := nat_of_ascii c in
  (n =? 32)%nat || ((9 <=? n)%nat && (n <=? 13)%nat).

Fixpoint lstrip (s : string) : string :=
  match s with
  | EmptyString => EmptyString
  | String c r => if is_space c then lstrip r else s
  end.

(** [rstrip] keeps a character when it is not a space or when something
    survives to its right. *)
Fixpoint rstrip (s : string) : string :=
  match s with
  | EmptyString => EmptyString
  | String c r =>
      match rstrip r with
      | EmptyString => if is_space c then EmptyString else String c EmptyString
      | r' => String c r'
      end
  end.

Definition strip (s : string) : string := rstrip (lstrip s).

(** [bytes.decode("utf-8")].  A [str] is represented by its UTF-8
    encoding, so decoding a byte string keeps the bytes when they are
    well-formed UTF-8 and fails otherwise.  Well-formed sequences are
    those of the strict decoder: no overlong form, no surrogate, nothing
    above U+10FFFF. *)
Definition in_range (lo hi : nat) (c : ascii) : bool :=
  let n := nat_of_ascii c in
  (lo <=? n)%nat && (n <=? hi)%nat.

(** The ranges of the continuation bytes that must follow the lead byte
    [c]; [None] when [c] cannot start a sequence. *)
Definition utf8_lead (c : ascii) : option (list (nat * nat)) :=
  let n := nat_of_ascii c in
  if (n <=? 127)%nat then Some []
  else if (194 <=? n)%nat && (n <=? 223)%nat then Some [(128, 191)]
  else if (n =? 224)%nat then Some [(160, 191); (128, 191)]
  else if ((225 <=? n)%nat && (n <=? 236)%nat) || (n =? 238)%nat || (n =? 239)%nat
       then Some [(128, 191); (128, 191)]
  else if (n =? 237)%nat then Some [(128, 159); (128, 191)]
  else if (n =? 240)%nat then Some [(144, 191); (128, 191); (128, 191)]
  else if (241 <=? n)%nat && (n <=? 243)%nat
       then Some [(128, 191); (128, 191); (128, 191)]
  else if (n =? 244)%nat then Some [(128, 143); (128, 191); (128, 191)]
  else None.

Fixpoint utf8_valid_from (pending : list (nat * nat)) (s : string) : bool :=
  match s with
  | EmptyString =>
      match pending with
      | [] => true
      | _ :: _ => false
      end
  | String c r =>
      match pending with
      | [] =>
          match utf8_lead c with
          | Some p => utf8_valid_from p r
          | None => false
          end
      | (lo, hi) :: p => in_range lo hi c && utf8_valid_from p r
      end
  end.

Definition utf8_valid (s : string) : bool := utf8_valid_from [] s.

End Py.

(** ** Exceptions and subprocess outcomes *)

(** The [OSError] subclasses that [subprocess] raises when the child
    cannot be spawned. *)
Inductive os_error : Type :=
| PermissionError      (* EACCES: invocation denied *)
| FileNotFoundError    (* ENOENT: the executable is missing *)
| OtherOSError.        (* any other OSError *)

(** The exceptions that travel through [setup.py]. *)
Inductive exn : Type :=
| OSError (e : os_error)
| CalledProcessError (returncode : Z) (cmd : list string)
| RuntimeError (msg : string)
| UnicodeDecodeError.

(** What the operating system does with one spawn request. *)
Inductive spawn_outcome : Type :=
| Exited (returncode : Z) (stdout : string)
| SpawnFailed (e : os_error).

(** The four places where [setup.py] starts a subprocess. *)
Inductive call_site : Type :=
| ProbeCpus      (* subprocess.check_output(command) in _get_n_cpus *)
| ToolCheck      (* subprocess.check_output(["cmake", "--version"]) *)
| Configure      (* subprocess.check_call(["cmake", ext.sourcedir] + cmake_args, ...) *)
| Build.         (* subprocess.check_call(["cmake", "--build", ...] + build_args, ...) *)

(** One subprocess invocation: where it was made, its argument vector,
    its working directory ([None]: inherited) and the environment passed
    explicitly ([None]: inherited). *)
Record invocation : Type := Invocation {
  inv_site : call_site;
  inv_argv : list string;
  inv_cwd  : option string;
  inv_env  : option (gmap string string)
}.

Definition call_site_eqb (a b : call_site) : bool :=
  match a, b with
  | ProbeCpus, ProbeCpus | ToolCheck, ToolCheck
  | Configure, Configure | Build, Build => true
  | _, _ => false
  end.

(** The log of invocations, oldest first. *)
Abbreviation trace := (list invocation).

(** ** The host *)

(** Everything [setup.py] reads from its surroundings.  [spawn] answers a
    spawn request given the invocations made before it, so the same command
    may behave differently at different times. *)
Record Host : Type := {
  environ         : gmap string string;   (* os.environ *)
  platform_system : string;               (* platform.system() *)
  sys_maxsize     : Z;                    (* sys.maxsize *)
  sys_executable  : string;               (* sys.executable *)
  getcwd          : string;               (* os.getcwd() *)
  path_join       : string -> string -> string;  (* os.path.join *)
  spawn           : trace -> invocation -> spawn_outcome
}.

(** ** The state-and-error monad *)

Inductive result (A : Type) : Type :=
| Ok (a : A)
| Raise (e : exn).
Arguments Ok {A} a.
Arguments Raise {A} e.

Definition M (A : Type) : Type := trace -> result A * trace.

Definition ret {A} (a : A) : M A := fun t => (Ok a, t).

Definition raise {A} (e : exn) : M A := fun t => (Raise e, t).

Definition bind {A B} (m : M A) (k : A -> M B) : M B :=
  fun t =>
    match m t with
    | (Ok a, t') => k a t'
    | (Raise e, t') => (Raise e, t')
    end.

(** [try: m except <handles>: h e]. *)
Definition try_except {A} (m : M A) (handles : exn -> bool) (h : exn -> M A)
  : M A :=
  fun t =>
    match m t with
    | (Ok a, t') => (Ok a, t')
    | (Raise e, t') => if handles e then h e t' else (Raise e, t')
    end.

Declare Scope py_scope.
Delimit Scope py_scope with py.
Notation "x <- m ;; k" := (bind m (fun x => k))
  (at level 100, m at next level, right associativity) : py_scope.
Notation "m ;;; k" := (bind m (fun _ => k))
  (at level 100, right associativity) : py_scope.
Local Open Scope py_scope.

(** ** [subprocess] *)

(** [subprocess.check_output]: logs the invocation; a spawn failure raises
    the [OSError], a non-zero exit raises [CalledProcessError], a zero exit
    returns the captured output. *)
Definition check_output (h : Host) (i : invocation) : M string :=
  fun t =>
    match spawn h t i with
    | SpawnFailed e => (Raise (OSError e), t ++ [i])
    | Exited rc out =>
        if (rc =? 0)%Z then (Ok out, t ++ [i])
        else (Raise (CalledProcessError rc (inv_argv i)), t ++ [i])
    end.

(** [subprocess.check_call]: as above, without the output. *)
Definition check_call (h : Host) (i : invocation) : M unit :=
  fun t =>
    match spawn h t i with
    | SpawnFailed e => (Raise (OSError e), t ++ [i])
    | Exited rc _ =>
        if (rc =? 0)%Z then (Ok tt, t ++ [i])
        else (Raise (CalledProcessError rc (inv_argv i)), t ++ [i])
    end.

Definition is_PermissionError (e : exn) : bool :=
  match e with
  | OSError PermissionError => true
  | _ => false
  end.

Definition is_OSError (e : exn) : bool :=
  match e with
  | OSError _ => true
  | _ => false
  end.

(** ** [_get_n_cpus] *)

Definition n_cpus_command (platform_name : string) : list string :=
  if String.eqb platform_name "Linux" then ["nproc"]
  else if String.eqb platform_name "Darwin" then ["sysctl"; "-n"; "hw.ncpu"]
  else [""].

(** [b.decode("utf-8")]: raises [UnicodeDecodeError] on bytes that are not
    well-formed UTF-8. *)
Definition decode_utf8 (b : string) : M string :=
  if Py.utf8_valid b then ret b else raise UnicodeDecodeError.

(** [strip] removes the newline from the captured bytes, which are then
    decoded; both happen inside the [try]. *)
Definition _get_n_cpus (h : Host) (platform_name : string) : M string :=
  let command := n_cpus_command platform_name in
  try_except
    (out <- check_output h (Invocation ProbeCpus command None None) ;;
     decode_utf8 (Py.strip out))
    is_PermissionError
    (fun _ => ret "").

(** ** [CMakeExtension] and [CMakeBuild] *)

Definition VERSION : string := "0.2.0".

Record CMakeExtension : Type := {
  name      : string;
  sourcedir : string    (* os.path.abspath(sourcedir) *)
}.

(** The command object.  [ext_output_dir n] stands for
    [os.path.abspath(os.path.dirname(self.get_ext_fullpath(n)))], which
    setuptools computes. *)
Record CMakeBuild : Type := {
  debug          : bool;
  opt_flags      : option string;     (* None unless --opt-flags= was given *)
  extensions     : list CMakeExtension;
  ext_output_dir : string -> string
}.

(** [os.getenv(key, default)] with [default=None] when omitted. *)
Definition os_getenv (h : Host) (key : string) (default : option string)
  : option string :=
  match environ h !! key with
  | Some v => Some v
  | None => default
  end.

(** ** [CMakeBuild._generate_args] *)

Definition must_be_installed (what : string) (self : CMakeBuild) : string :=
  what +:+ " must be installed to build the following extensions: "
       +:+ Py.join ", " (map name (extensions self)).

Definition _generate_args (h : Host) (self : CMakeBuild) (ext : CMakeExtension)
  : M (list string * list string) :=
  let archive_dir := path_join h (getcwd h) "lib" in
  let extdir := ext_output_dir self (name ext) in
  let bindir := path_join h (getcwd h) "bin" in
  let cmake_args :=
    [ "-DCMAKE_ARCHIVE_OUTPUT_DIRECTORY=" +:+ archive_dir;
      "-DCMAKE_LIBRARY_OUTPUT_DIRECTORY=" +:+ extdir;
      "-DCMAKE_RUNTIME_OUTPUT_DIRECTORY=" +:+ bindir;
      "-DPYTHON_EXECUTABLE=" +:+ sys_executable h;
      "-DPYTHON_SETUP_FLAG:STR=Yes";
      "-DUSE_GPU:STR=No" ] in
  let cfg := if debug self then "Debug" else "Release" in
  let build_args := ["--config"; cfg] in
  if String.eqb (platform_system h) "Windows" then
    let cmake_args := cmake_args ++
      [ "-DCMAKE_LIBRARY_OUTPUT_DIRECTORY_" +:+ Py.upper cfg +:+ "=" +:+ extdir;
        "-DCMAKE_RUNTIME_OUTPUT_DIRECTORY_" +:+ Py.upper cfg +:+ "=" +:+ extdir ] in
    let cmake_args :=
      if (sys_maxsize h >? 2 ^ 32)%Z then cmake_args ++ ["-A"; "x64"]
      else cmake_args in
    let build_args := build_args ++ ["--"; "/m"] in
    ret (build_args, cmake_args)
  else
    let gcc := os_getenv h "C_COMPILER" (Some "gcc") in
    let gxx := os_getenv h "CXX_COMPILER" (Some "g++") in
    match gcc, gxx with
    | Some gcc, Some gxx =>
        let cmake_args := cmake_args ++ ["-DCMAKE_C_COMPILER=" +:+ gcc] in
        let cmake_args := cmake_args ++ ["-DCMAKE_CXX_COMPILER=" +:+ gxx] in
        let cmake_args := cmake_args ++ ["-DCMAKE_BUILD_TYPE=" +:+ cfg] in
        n_cpus <- _get_n_cpus h (platform_system h) ;;
        let build_args := build_args ++ ["--"; "-j" +:+ n_cpus] in
        ret (build_args, cmake_args)
    | _, _ =>
        (* gcc is None or gxx is None *)
        raise (RuntimeError (must_be_installed "gcc/g++" self))
    end.

(** ** [CMakeBuild.build_extension] *)

(** Lines 68-73: the explicit option, else a truthy environment value,
    else [None]. *)
Definition resolve_opt_flags (h : Host) (self : CMakeBuild) : option string :=
  match opt_flags self with
  | Some f => Some f
  | None =>
      if Py.truthy_opt (os_getenv h "QULACS_OPT_FLAGS" None)
      then os_getenv h "QULACS_OPT_FLAGS" None
      else None
  end.

(** [cmake_args += [prefix + value]] guarded by [if value:]. *)
Definition append_if_truthy (prefix : string) (value : option string)
           (cmake_args : list string) : list string :=
  match value with
  | Some v => if Py.truthy v then cmake_args ++ [prefix +:+ v] else cmake_args
  | None => cmake_args
  end.

(** Lines 68-81: the configure arguments after the three optional flags. *)
Definition extend_cmake_args (h : Host) (self : CMakeBuild)
           (cmake_args : list string) : list string :=
  let cmake_args :=
    append_if_truthy "-DOPT_FLAGS=" (resolve_opt_flags h self) cmake_args in
  let cmake_args :=
    append_if_truthy "-DUSE_GPU:STR=" (os_getenv h "USE_GPU" None) cmake_args in
  let cmake_args :=
    append_if_truthy "-DUSE_OMP:STR=" (os_getenv h "USE_OMP" None) cmake_args in
  cmake_args.

Definition dquote : string := String (ascii_of_nat 34) EmptyString.

(** Lines 83-86: the environment handed to the configure step. *)
Definition configure_env (h : Host) : gmap string string :=
  let cxxflags := default "" (environ h !! "CXXFLAGS") in
  <["CXXFLAGS" := cxxflags +:+ " -DVERSION_INFO=\" +:+ dquote
                           +:+ VERSION +:+ "\" +:+ dquote]> (environ h).

Definition configure_invocation (h : Host) (ext : CMakeExtension)
           (cmake_args : list string) : invocation :=
  let build_dir := path_join h (getcwd h) "build" in
  Invocation Configure (["cmake"; sourcedir ext] ++ cmake_args)
             (Some build_dir) (Some (configure_env h)).

Definition build_invocation (h : Host) (build_args : list string)
  : invocation :=
  let build_dir := path_join h (getcwd h) "build" in
  Invocation Build (["cmake"; "--build"; "."; "--target"; "python"] ++ build_args)
             (Some build_dir) None.

(** The directory creation of lines 87-91 touches only the file system and
    is left out: the log records subprocesses. *)
Definition build_extension (h : Host) (self : CMakeBuild) (ext : CMakeExtension)
  : M unit :=
  args <- _generate_args h self ext ;;
  let build_args := fst args in
  let cmake_args := extend_cmake_args h self (snd args) in
  check_call h (configure_invocation h ext cmake_args) ;;;
  check_call h (build_invocation h build_args).

(** ** [CMakeBuild.run] *)

Fixpoint for_each {A} (body : A -> M unit) (xs : list A) : M unit :=
  match xs with
  | [] => ret tt
  | x :: rest => body x ;;; for_each body rest
  end.

Definition run (h : Host) (self : CMakeBuild) : M unit :=
  try_except
    (_ <- check_output h (Invocation ToolCheck ["cmake"; "--version"] None None) ;;
     ret tt)
    is_OSError
    (fun _ => raise (RuntimeError (must_be_installed "CMake" self))) ;;;
  for_each (build_extension h self) (extensions self).

(** * Vocabulary of the properties *)

(** The configuration key of a configure token: the text before its first
    [=] (the whole token when it has none). *)
Fixpoint key_of (s : string) : string :=
  match s with
  | EmptyString => EmptyString
  | String c r => if Ascii.eqb c "=" then EmptyString else String c (key_of r)
  end.

(** The tokens of [args] that set key [k], in order. *)
Definition flags_for (k : string) (args : list string) : list string :=
  List.filter (fun tok => String.eqb (key_of tok) k) args.

(** How often the token [tok] occurs in [args]. *)
Definition occurrences (tok : string) (args : list string) : nat :=
  length (List.filter (String.eqb tok) args).

(** No two tokens set the same key to different values. *)
Definition consistent_keys (args : list string) : Prop :=
  forall a b, In a args -> In b args -> key_of a = key_of b -> a = b.

(** The invocations of [t] made from call site [s]. *)
Definition spawned (s : call_site) (t : trace) : trace :=
  List.filter (fun i => call_site_eqb (inv_site i) s) t.

(** [needle] occurs inside [hay]. *)
Definition contains (needle hay : string) : Prop :=
  exists pre post, hay = pre +:+ needle +:+ post.

(** The configuration name that follows [--config] in the build arguments. *)
Definition config_name (build_args : list string) : option string :=
  match build_args with
  | flag :: cfg :: _ => if String.eqb flag "--config" then Some cfg else None
  | _ => None
  end.

(** The configure arguments [build_extension] hands to [cmake] from the
    log [t], when argument generation returns. *)
Definition configure_args (h : Host) (self : CMakeBuild) (ext : CMakeExtension)
           (t : trace) : option (list string) :=
  match _generate_args h self ext t with
  | (Ok args, _) => Some (extend_cmake_args h self (snd args))
  | (Raise _, _) => None
  end.

(** The same host with another environment. *)
Definition with_environ (h : Host) (env : gmap string string) : Host :=
  {| environ := env;
     platform_system := platform_system h;
     sys_maxsize := sys_maxsize h;
     sys_executable := sys_executable h;
     getcwd := getcwd h;
     path_join := path_join h;
     spawn := spawn h |}.

(** The three shapes of the configure arguments that [_generate_args]
    builds, written out for the statements below. *)
Definition fixed_flags (h : Host) (self : CMakeBuild) (ext : CMakeExtension)
  : list string :=
  [ "-DCMAKE_ARCHIVE_OUTPUT_DIRECTORY=" +:+ path_join h (getcwd h) "lib";
    "-DCMAKE_LIBRARY_OUTPUT_DIRECTORY=" +:+ ext_output_dir self (name ext);
    "-DCMAKE_RUNTIME_OUTPUT_DIRECTORY=" +:+ path_join h (getcwd h) "bin";
    "-DPYTHON_EXECUTABLE=" +:+ sys_executable h;
    "-DPYTHON_SETUP_FLAG:STR=Yes";
    "-DUSE_GPU:STR=No" ].

Definition cfg_of (self : CMakeBuild) : string :=
  if debug self then "Debug" else "Release".

Definition windows_flags (h : Host) (self : CMakeBuild) (ext : CMakeExtension)
  : list string :=
  fixed_flags h self ext ++
  [ "-DCMAKE_LIBRARY_OUTPUT_DIRECTORY_" +:+ Py.upper (cfg_of self) +:+ "="
      +:+ ext_output_dir self (name ext);
    "-DCMAKE_RUNTIME_OUTPUT_DIRECTORY_" +:+ Py.upper (cfg_of self) +:+ "="
      +:+ ext_output_dir self (name ext) ] ++
  (if (sys_maxsize h >? 2 ^ 32)%Z then ["-A"; "x64"] else []).

Definition posix_flags (h : Host) (self : CMakeBuild) (ext : CMakeExtension)
  : list string :=
  fixed_flags h self ext ++
  [ "-DCMAKE_C_COMPILER=" +:+ default "gcc" (environ h !! "C_COMPILER");
    "-DCMAKE_CXX_COMPILER=" +:+ default "g++" (environ h !! "CXX_COMPILER");
    "-DCMAKE_BUILD_TYPE=" +:+ cfg_of self ].

(** The optional flag that [append_if_truthy] adds. *)
Definition optional_flag (prefix : string) (value : option string)
  : list string :=
  match value with
  | Some (String c r) => [prefix +:+ String c r]
  | _ => []
  end.

(** The optional part that lines 68-81 add after the generated flags. *)
Definition optional_flags (h : Host) (self : CMakeBuild) : list string :=
  optional_flag "-DOPT_FLAGS=" (resolve_opt_flags h self) ++
  optional_flag "-DUSE_GPU:STR=" (environ h !! "USE_GPU") ++
  optional_flag "-DUSE_OMP:STR=" (environ h !! "USE_OMP").

Definition probe_invocation (platform_name : string) : invocation :=
  Invocation ProbeCpus (n_cpus_command platform_name) None None.

Definition tool_check_invocation : invocation :=
  Invocation ToolCheck ["cmake"; "--version"] None None.

(** The key of the hardware-acceleration backend flag. *)
Definition gpu_key : string := "-DUSE_GPU:STR".

Definition not_gpu (tok : string) : bool :=
  negb (String.eqb (key_of tok) gpu_key).

(** The key of the optimization flag. *)
Definition opt_key : string := "-DOPT_FLAGS".

(** ** Concrete hosts and commands *)

Definition newline : string := String (ascii_of_nat 10) EmptyString.

(** [os.path.join] on a directory that does not end in a separator. *)
Definition posix_join (a b : string) : string := a +:+ "/" +:+ b.

(** Every subprocess succeeds; the probe prints [8]. *)
Definition all_succeed (t : trace) (i : invocation) : spawn_outcome :=
  match inv_site i with
  | ProbeCpus => Exited 0 ("8" +:+ newline)
  | _ => Exited 0 ""
  end.

Definition host_of (system : string) (env : gmap string string)
           (sp : trace -> invocation -> spawn_outcome) : Host :=
  {| environ := env;
     platform_system := system;
     sys_maxsize := 2 ^ 63 - 1;
     sys_executable := "/usr/bin/python3";
     getcwd := "/src/qulacs";
     path_join := posix_join;
     spawn := sp |}.

Definition qulacs_core : CMakeExtension :=
  {| name := "qulacs_core"; sourcedir := "/src/qulacs" |}.

Definition command (dbg : bool) (opt : option string) : CMakeBuild :=
  {| debug := dbg;
     opt_flags := opt;
     extensions := [qulacs_core];
     ext_output_dir := fun _ => "/src/qulacs/build/lib" |}.

(** A Linux host where the caller asked for the GPU backend. *)
Definition gpu_host : Host :=
  host_of "Linux" {[ "USE_GPU" := "Yes" ]} all_succeed.

Definition gpu_args : list string :=
  [ "-DCMAKE_ARCHIVE_OUTPUT_DIRECTORY=/src/qulacs/lib";
    "-DCMAKE_LIBRARY_OUTPUT_DIRECTORY=/src/qulacs/build/lib";
    "-DCMAKE_RUNTIME_OUTPUT_DIRECTORY=/src/qulacs/bin";
    "-DPYTHON_EXECUTABLE=/usr/bin/python3";
    "-DPYTHON_SETUP_FLAG:STR=Yes";
    "-DUSE_GPU:STR=No";
    "-DCMAKE_C_COMPILER=gcc";
    "-DCMAKE_CXX_COMPILER=g++";
    "-DCMAKE_BUILD_TYPE=Release";
    "-DUSE_GPU:STR=Yes" ].

(** The probe utility exits with status 1; everything else succeeds. *)
Definition probe_exits_1 (t : trace) (i : invocation) : spawn_outcome :=
  match inv_site i with
  | ProbeCpus => Exited 1 ""
  | _ => Exited 0 ""
  end.

(** The probe utility exits with status 0 after printing the byte 255,
    which is not UTF-8; everything else succeeds. *)
Definition probe_prints_byte_255 (t : trace) (i : invocation) : spawn_outcome :=
  match inv_site i with
  | ProbeCpus => Exited 0 (String (ascii_of_nat 255) newline)
  | _ => Exited 0 ""
  end.

(** The operating system denies the probe; everything else succeeds. *)
Definition probe_denied (t : trace) (i : invocation) : spawn_outcome :=
  match inv_site i with
  | ProbeCpus => SpawnFailed PermissionError
  | _ => Exited 0 ""
  end.

(** A Linux host whose [C_COMPILER] override is the empty string. *)
Definition empty_cc_host : Host :=
  host_of "Linux" {[ "C_COMPILER" := "" ]} all_succeed.

Definition empty_cc_args : list string :=
  [ "cmake"; "/src/qulacs";
    "-DCMAKE_ARCHIVE_OUTPUT_DIRECTORY=/src/qulacs/lib";
    "-DCMAKE_LIBRARY_OUTPUT_DIRECTORY=/src/qulacs/build/lib";
    "-DCMAKE_RUNTIME_OUTPUT_DIRECTORY=/src/qulacs/bin";
    "-DPYTHON_EXECUTABLE=/usr/bin/python3";
    "-DPYTHON_SETUP_FLAG:STR=Yes";
    "-DUSE_GPU:STR=No";
    "-DCMAKE_C_COMPILER=";
    "-DCMAKE_CXX_COMPILER=g++";
    "-DCMAKE_BUILD_TYPE=Release" ].

(** The configure step exits with status 2; everything else succeeds. *)
Definition configure_exits_2 (t : trace) (i : invocation) : spawn_outcome :=
  match inv_site i with
  | ProbeCpus => Exited 0 ("8" +:+ newline)
  | Configure => Exited 2 ""
  | _ => Exited 0 ""
  end.

(** [cmake] is not installed. *)
Definition no_cmake (t : trace) (i : invocation) : spawn_outcome :=
  match inv_site i with
  | ProbeCpus => Exited 0 ("8" +:+ newline)
  | _ => SpawnFailed FileNotFoundError
  end.

(** A Linux host whose environment asks for [-O3]. *)
Definition o3_host : Host :=
  host_of "Linux" {[ "QULACS_OPT_FLAGS" := "-O3" ]} all_succeed.

Definition plain_args : list string :=
  [ "-DCMAKE_ARCHIVE_OUTPUT_DIRECTORY=/src/qulacs/lib";
    "-DCMAKE_LIBRARY_OUTPUT_DIRECTORY=/src/qulacs/build/lib";
    "-DCMAKE_RUNTIME_OUTPUT_DIRECTORY=/src/qulacs/bin";
    "-DPYTHON_EXECUTABLE=/usr/bin/python3";
    "-DPYTHON_SETUP_FLAG:STR=Yes";
    "-DUSE_GPU:STR=No";
    "-DCMAKE_C_COMPILER=gcc";
    "-DCMAKE_CXX_COMPILER=g++";
    "-DCMAKE_BUILD_TYPE=Release" ].

(** ** Vocabulary of the log *)

(** What [_generate_args] adds to the log: nothing on Windows, the probe
    everywhere else. *)
Definition probe_log (h : Host) : trace :=
  if String.eqb (platform_system h) "Windows" then []
  else [probe_invocation (platform_system h)].

(** The [cmake] invocations one call of [build_extension] can add after the
    probe, with the result they go with. *)
Inductive target_steps (h : Host) (self : CMakeBuild) (ext : CMakeExtension)
  : result unit -> trace -> Prop :=
| steps_none e :
    target_steps h self ext (Raise e) []
| steps_configure_failed e cargs :
    target_steps h self ext (Raise e) [configure_invocation h ext cargs]
| steps_build_failed e cargs n_tok :
    target_steps h self ext (Raise e)
      [ configure_invocation h ext cargs;
        build_invocation h ["--config"; cfg_of self; "--"; n_tok] ]
| steps_built cargs n_tok :
    target_steps h self ext (Ok tt)
      [ configure_invocation h ext cargs;
        build_invocation h ["--config"; cfg_of self; "--"; n_tok] ].

(** The invocations the loop of [run] can add for a list of targets. *)
Inductive targets_log (h : Host) (self : CMakeBuild)
  : list CMakeExtension -> result unit -> trace -> Prop :=
| log_done :
    targets_log h self [] (Ok tt) []
| log_target_built ext rest r steps more :
    target_steps h self ext (Ok tt) steps ->
    targets_log h self rest r more ->
    targets_log h self (ext :: rest) r (probe_log h ++ steps ++ more)
| log_target_failed ext rest e steps :
    target_steps h self ext (Raise e) steps ->
    targets_log h self (ext :: rest) (Raise e) (probe_log h ++ steps).

(** No character of [s] is whitespace. *)
Fixpoint no_space (s : string) : bool :=
  match s with
  | EmptyString => true
  | String c r => negb (Py.is_space c) && no_space r
  end.

(** The source directory a configure invocation names. *)
Definition source_of (i : invocation) : string := nth 1 (inv_argv i) "".

Definition build_dir (h : Host) : string := path_join h (getcwd h) "build".

(** The shape of an invocation that [run] makes for its targets. *)
Definition target_invocation (h : Host) (self : CMakeBuild) (i : invocation)
  : Prop :=
  match inv_site i with
  | ToolCheck => False
  | ProbeCpus =>
      platform_system h <> "Windows"
      /\ i = probe_invocation (platform_system h)
  | Configure =>
      inv_cwd i = Some (build_dir h)
      /\ inv_env i = Some (configure_env h)
      /\ exists src cargs, inv_argv i = "cmake" :: src :: cargs
  | Build =>
      inv_cwd i = Some (build_dir h)
      /\ inv_env i = None
      /\ exists n_tok,
           inv_argv i = [ "cmake"; "--build"; "."; "--target"; "python";
                          "--config"; cfg_of self; "--"; n_tok ]
  end.

(** [nproc] is not installed; everything else succeeds. *)
Definition probe_missing (t : trace) (i : invocation) : spawn_outcome :=
  match inv_site i with
  | ProbeCpus => SpawnFailed FileNotFoundError
  | _ => Exited 0 ""
  end.

(** The build step exits with status 3; everything else succeeds. *)
Definition build_exits_3 (t : trace) (i : invocation) : spawn_outcome :=
  match inv_site i with
  | ProbeCpus => Exited 0 ("8" +:+ newline)
  | Build => Exited 3 ""
  | _ => Exited 0 ""
  end.

(** [cmake --version] exits with status 1; everything else succeeds. *)
Definition check_exits_1 (t : trace) (i : invocation) : spawn_outcome :=
  match inv_site i with
  | ProbeCpus => Exited 0 ("8" +:+ newline)
  | ToolCheck => Exited 1 ""
  | _ => Exited 0 ""
  end.

(** A Windows host whose [sys.maxsize] is exactly [2^32]. *)
Definition windows_at_bound : Host :=
  {| environ := ∅;
     platform_system := "Windows";
     sys_maxsize := 2 ^ 32;
     sys_executable := "C:/Python/python.exe";
     getcwd := "C:/src/qulacs";
     path_join := posix_join;
     spawn := all_succeed |}.

Definition second_ext : CMakeExtension :=
  {| name := "qulacs_extra"; sourcedir := "/src/extra" |}.

(** A command with two targets. *)
Definition two_targets : CMakeBuild :=
  {| debug := false;
     opt_flags := None;
     extensions := [qulacs_core; second_ext];
     ext_output_dir := fun _ => "/src/qulacs/build/lib" |}.

(** The first target builds, the configure step of the second exits with
    status 2. *)
Definition second_configure_fails (t : trace) (i : invocation)
  : spawn_outcome :=
  match inv_site i with
  | ProbeCpus => Exited 0 ("8" +:+ newline)
  | Configure =>
      if String.eqb (source_of i) "/src/extra" then Exited 2 "" else Exited 0 ""
  | _ => Exited 0 ""
  end.

(** * Shared lemmas *)

Section Probe.
Variables (h : Host) (p : string) (t : trace).

Lemma _get_n_cpus_denied :
  spawn h t (probe_invocation p) = SpawnFailed PermissionError ->
  _get_n_cpus h p t = (Ok "", t ++ [probe_invocation p]).
Proof.
  intros Hs. unfold _get_n_cpus, try_except, bind, check_output.
  fold (probe_invocation p). now rewrite Hs.
Qed.

Lemma _get_n_cpus_success out :
  spawn h t (probe_invocation p) = Exited 0 out ->
  Py.utf8_valid (Py.strip out) = true ->
  _get_n_cpus h p t = (Ok (Py.strip out), t ++ [probe_invocation p]).
Proof.
  intros Hs Hv. unfold _get_n_cpus, try_except, bind, check_output, decode_utf8.
  fold (probe_invocation p). rewrite Hs.
  change (0 =? 0)%Z with true. cbv beta iota. now rewrite Hv.
Qed.

Lemma _get_n_cpus_undecodable out :
  spawn h t (probe_invocation p) = Exited 0 out ->
  Py.utf8_valid (Py.strip out) = false ->
  _get_n_cpus h p t = (Raise UnicodeDecodeError, t ++ [probe_invocation p]).
Proof.
  intros Hs Hv. unfold _get_n_cpus, try_except, bind, check_output, decode_utf8.
  fold (probe_invocation p). rewrite Hs.
  change (0 =? 0)%Z with true. cbv beta iota. now rewrite Hv.
Qed.

Lemma _get_n_cpus_nonzero rc out :
  rc <> 0%Z ->
  spawn h t (probe_invocation p) = Exited rc out ->
  _get_n_cpus h p t =
    (Raise (CalledProcessError rc (n_cpus_command p)),
     t ++ [probe_invocation p]).
Proof.
  intros Hrc Hs. unfold _get_n_cpus, try_except, bind, check_output.
  fold (probe_invocation p). rewrite Hs.
  apply Z.eqb_neq in Hrc. now rewrite Hrc.
Qed.

(** Whatever happens, the probe logs exactly its own invocation. *)
Lemma _get_n_cpus_trace :
  snd (_get_n_cpus h p t) = t ++ [probe_invocation p].
Proof.
  unfold _get_n_cpus, try_except, bind, check_output, decode_utf8.
  fold (probe_invocation p).
  destruct (spawn h t (probe_invocation p)) as [rc out | e].
  - destruct (rc =? 0)%Z; [|reflexivity].
    destruct (Py.utf8_valid (Py.strip out)); reflexivity.
  - destruct e; reflexivity.
Qed.

(** The probe never raises [RuntimeError]. *)
Lemma _get_n_cpus_no_RuntimeError msg :
  fst (_get_n_cpus h p t) <> Raise (RuntimeError msg).
Proof.
  unfold _get_n_cpus, try_except, bind, check_output, decode_utf8.
  fold (probe_invocation p).
  destruct (spawn h t (probe_invocation p)) as [rc out | e].
  - destruct (rc =? 0)%Z; [|discriminate].
    destruct (Py.utf8_valid (Py.strip out)); discriminate.
  - destruct e; discriminate.
Qed.
End Probe.

Section GenerateArgs.
Variables (h : Host) (self : CMakeBuild) (ext : CMakeExtension) (t : trace).

Lemma _generate_args_windows :
  platform_system h = "Windows" ->
  _generate_args h self ext t =
    (Ok (["--config"; cfg_of self; "--"; "/m"], windows_flags h self ext), t).
Proof.
  intros Hw. unfold _generate_args, windows_flags, fixed_flags, cfg_of.
  rewrite Hw. cbn [String.eqb Ascii.eqb Bool.eqb].
  destruct (sys_maxsize h >? 2 ^ 32)%Z; reflexivity.
Qed.

Lemma _generate_args_posix :
  platform_system h <> "Windows" ->
  _generate_args h self ext t =
    match _get_n_cpus h (platform_system h) t with
    | (Ok n_cpus, t') =>
        (Ok (["--config"; cfg_of self; "--"; "-j" +:+ n_cpus],
             posix_flags h self ext), t')
    | (Raise e, t') => (Raise e, t')
    end.
Proof.
  intros Hw. unfold _generate_args, posix_flags, fixed_flags, cfg_of, os_getenv.
  apply String.eqb_neq in Hw. rewrite Hw.
  destruct (environ h !! "C_COMPILER"), (environ h !! "CXX_COMPILER");
    unfold bind; destruct (_get_n_cpus h (platform_system h) t) as [[n|e] t'];
    reflexivity.
Qed.

(** Argument generation only ever appends probe invocations to the log. *)
Lemma _generate_args_trace :
  exists new, snd (_generate_args h self ext t) = t ++ new
              /\ spawned Configure new = [] /\ spawned Build new = [].
Proof.
  destruct (String.eqb_spec (platform_system h) "Windows") as [Hw | Hw].
  - rewrite (_generate_args_windows Hw). exists []. now rewrite app_nil_r.
  - rewrite (_generate_args_posix Hw).
    exists [probe_invocation (platform_system h)].
    pose proof (_get_n_cpus_trace h (platform_system h) t) as Ht.
    destruct (_get_n_cpus h (platform_system h) t) as [[n|e] t'];
      cbn in Ht; subst t'; now split.
Qed.
End GenerateArgs.

Section ConfigureArgs.
Variables (h : Host) (self : CMakeBuild) (ext : CMakeExtension) (t : trace).

Lemma append_if_truthy_app prefix value c :
  append_if_truthy prefix value c = c ++ optional_flag prefix value.
Proof.
  destruct value as [[|a r]|]; cbn; now rewrite ?app_nil_r.
Qed.

Lemma extend_cmake_args_app c :
  extend_cmake_args h self c = c ++ optional_flags h self.
Proof.
  unfold extend_cmake_args, optional_flags, os_getenv.
  rewrite !append_if_truthy_app, <- !app_assoc.
  now destruct (environ h !! "USE_GPU"), (environ h !! "USE_OMP").
Qed.

Lemma configure_args_windows :
  platform_system h = "Windows" ->
  configure_args h self ext t = Some (windows_flags h self ext ++ optional_flags h self).
Proof.
  intros Hw. unfold configure_args.
  rewrite (_generate_args_windows h self ext t Hw). cbn [snd].
  now rewrite extend_cmake_args_app.
Qed.

Lemma configure_args_posix args :
  platform_system h <> "Windows" ->
  configure_args h self ext t = Some args ->
  args = posix_flags h self ext ++ optional_flags h self.
Proof.
  intros Hw. unfold configure_args.
  rewrite (_generate_args_posix h self ext t Hw).
  destruct (_get_n_cpus h (platform_system h) t) as [[n|e] t']; [|discriminate].
  cbn [snd]. rewrite extend_cmake_args_app. congruence.
Qed.
End ConfigureArgs.

(** ** Keys of the configure arguments *)

Lemma optional_flag_cases prefix value :
  optional_flag prefix value = []
  \/ exists c r, value = Some (String c r)
                 /\ optional_flag prefix value = [prefix +:+ String c r].
Proof.
  destruct value as [[|c r]|]; cbn; eauto.
Qed.

Ltac split_optional_flags :=
  unfold optional_flags;
  repeat match goal with
    | |- context [optional_flag ?p ?v] =>
        let c := fresh "c" in
        let r := fresh "r" in
        let Hv := fresh "Hv" in
        let Hf := fresh "Hf" in
        destruct (optional_flag_cases p v) as [Hf | (c & r & Hv & Hf)];
        rewrite Hf; clear Hf
    end.

Lemma flags_for_not_gpu k (args : list string) :
  k <> gpu_key -> flags_for k (List.filter not_gpu args) = flags_for k args.
Proof.
  intros Hk. unfold flags_for.
  induction args as [|a args IH]; [reflexivity|].
  cbn [List.filter]. unfold not_gpu at 1.
  destruct (String.eqb_spec (key_of a) gpu_key) as [Hg | Hg]; cbn [negb List.filter].
  - destruct (String.eqb_spec (key_of a) k) as [Hk' | _]; [congruence | exact IH].
  - now rewrite IH.
Qed.

Lemma flags_for_absent k (l : list string) :
  ~ In k (map key_of l) -> flags_for k l = [].
Proof.
  unfold flags_for.
  induction l as [|a l IH]; [reflexivity|].
  cbn [map In List.filter]. intros Hn.
  destruct (String.eqb_spec (key_of a) k) as [Hk | _]; [tauto|].
  apply IH. tauto.
Qed.

Lemma flags_for_unique_keys k (l : list string) :
  List.NoDup (map key_of l) -> length (flags_for k l) <= 1.
Proof.
  induction l as [|a l IH]; [cbn; lia|].
  cbn [map]. intros Hnd. inversion Hnd as [|? ? Hnotin Hnd']; subst.
  unfold flags_for. cbn [List.filter]. fold (flags_for k l).
  destruct (String.eqb_spec (key_of a) k) as [<- | _].
  - rewrite (flags_for_absent _ _ Hnotin). cbn. lia.
  - now apply IH.
Qed.

(** Apart from the GPU key, the keys of the configure arguments are
    pairwise different. *)
Lemma configure_args_other_keys h self ext t args :
  configure_args h self ext t = Some args ->
  List.NoDup (map key_of (List.filter not_gpu args)).
Proof.
  intros Ha. apply NoDup_ListNoDup.
  destruct (String.eqb_spec (platform_system h) "Windows") as [Hw | Hw].
  - rewrite (configure_args_windows h self ext t Hw) in Ha.
    injection Ha as <-.
    unfold windows_flags, fixed_flags, cfg_of.
    destruct (debug self), (sys_maxsize h >? 2 ^ 32)%Z; split_optional_flags.
    all: compute_done.
  - apply (configure_args_posix h self ext t args Hw) in Ha. subst args.
    unfold posix_flags, fixed_flags, cfg_of.
    destruct (debug self); split_optional_flags.
    all: compute_done.
Qed.

Lemma configure_args_gpu_flags h self ext t args :
  configure_args h self ext t = Some args ->
  flags_for gpu_key args =
    "-DUSE_GPU:STR=No" :: optional_flag "-DUSE_GPU:STR=" (environ h !! "USE_GPU").
Proof.
  intros Ha.
  destruct (String.eqb_spec (platform_system h) "Windows") as [Hw | Hw].
  - rewrite (configure_args_windows h self ext t Hw) in Ha.
    injection Ha as <-.
    unfold windows_flags, fixed_flags, cfg_of.
    destruct (debug self), (sys_maxsize h >? 2 ^ 32)%Z; split_optional_flags.
    all: vm_compute; reflexivity.
  - apply (configure_args_posix h self ext t args Hw) in Ha. subst args.
    unfold posix_flags, fixed_flags, cfg_of.
    destruct (debug self); split_optional_flags.
    all: vm_compute; reflexivity.
Qed.

Lemma configure_args_opt_flags h self ext t args :
  configure_args h self ext t = Some args ->
  flags_for opt_key args = optional_flag "-DOPT_FLAGS=" (resolve_opt_flags h self).
Proof.
  intros Ha.
  destruct (String.eqb_spec (platform_system h) "Windows") as [Hw | Hw].
  - rewrite (configure_args_windows h self ext t Hw) in Ha.
    injection Ha as <-.
    unfold windows_flags, fixed_flags, cfg_of.
    destruct (debug self), (sys_maxsize h >? 2 ^ 32)%Z; split_optional_flags.
    all: vm_compute; reflexivity.
  - apply (configure_args_posix h self ext t args Hw) in Ha. subst args.
    unfold posix_flags, fixed_flags, cfg_of.
    destruct (debug self); split_optional_flags.
    all: vm_compute; reflexivity.
Qed.

(** [_generate_args] reads only the two compiler variables of the
    environment. *)
Lemma _generate_args_environ h self ext t env :
  env !! "C_COMPILER" = environ h !! "C_COMPILER" ->
  env !! "CXX_COMPILER" = environ h !! "CXX_COMPILER" ->
  _generate_args (with_environ h env) self ext t = _generate_args h self ext t.
Proof.
  intros Hc Hx. unfold _generate_args, os_getenv.
  cbn [environ platform_system sys_maxsize sys_executable getcwd path_join
       with_environ].
  rewrite Hc, Hx. reflexivity.
Qed.

(** [configure_args] is what the configure subprocess of
    [build_extension] receives. *)
Lemma build_extension_passes_configure_args h self ext t args :
  configure_args h self ext t = Some args ->
  In (configure_invocation h ext args) (snd (build_extension h self ext t)).
Proof.
  unfold configure_args, build_extension, bind.
  destruct (_generate_args h self ext t) as [[a|e] t1]; [|discriminate].
  intros [= <-]. unfold check_call.
  destruct (spawn h t1 _) as [rc out | e].
  - destruct (rc =? 0)%Z; cbn [snd].
    + destruct (spawn h _ _) as [rc' out' | e']; [destruct (rc' =? 0)%Z|];
        cbn [snd]; rewrite !in_app_iff; cbn; tauto.
    + rewrite in_app_iff. cbn. tauto.
  - cbn [snd]. rewrite in_app_iff. cbn. tauto.
Qed.

(** ** Strings *)

Lemma append_assoc (a b c : string) : (a +:+ b) +:+ c = a +:+ b +:+ c.
Proof.
  induction a as [|x a IH]; [reflexivity|].
  change (String x ((a +:+ b) +:+ c) = String x (a +:+ b +:+ c)).
  now rewrite IH.
Qed.

Lemma append_empty_r (a : string) : a +:+ "" = a.
Proof.
  induction a as [|x a IH]; [reflexivity|].
  change (String x (a +:+ "") = String x a).
  now rewrite IH.
Qed.

Lemma contains_refl (x : string) : contains x x.
Proof.
  exists "", "". change (x = x +:+ ""). now rewrite append_empty_r.
Qed.

Lemma contains_app_l (x a b : string) : contains x a -> contains x (a +:+ b).
Proof.
  intros (pre & post & ->). exists pre, (post +:+ b).
  now rewrite !append_assoc.
Qed.

Lemma contains_app_r (x a b : string) : contains x b -> contains x (a +:+ b).
Proof.
  intros (pre & post & ->). exists (a +:+ pre), post.
  now rewrite !append_assoc.
Qed.

(** Every element of a joined list occurs in the result. *)
Lemma join_contains sep (x : string) (xs : list string) :
  In x xs -> contains x (Py.join sep xs).
Proof.
  induction xs as [|a xs IH]; [intros []|].
  intros Hin. destruct xs as [|b xs].
  - destruct Hin as [-> | []]. apply contains_refl.
  - change (Py.join sep (a :: b :: xs))
      with (a +:+ sep +:+ Py.join sep (b :: xs)).
    destruct Hin as [-> | Hin].
    + apply contains_app_l, contains_refl.
    + apply contains_app_r, contains_app_r, IH, Hin.
Qed.

(** * The claims *)

(** C1 (as stated, refuted).  With [USE_GPU=Yes] in the environment of a
    Linux host, the configure arguments carry the GPU key twice, first with
    the value [No] and then with the value [Yes]: the same key with
    conflicting values, and more than one flag for it. *)
Lemma C1_gpu_key_emitted_twice :
  configure_args gpu_host (command false None) qulacs_core [] = Some gpu_args
  /\ flags_for gpu_key gpu_args = ["-DUSE_GPU:STR=No"; "-DUSE_GPU:STR=Yes"]
  /\ ~ consistent_keys gpu_args
  /\ ~ length (flags_for gpu_key gpu_args) <= 1.
Proof.
  split; [vm_compute; reflexivity|].
  split; [vm_compute; reflexivity|].
  split.
  - intros Hc.
    assert (Heq : "-DUSE_GPU:STR=No" = "-DUSE_GPU:STR=Yes").
    { apply Hc; [cbn; tauto | cbn; tauto | reflexivity]. }
    discriminate Heq.
  - vm_compute. lia.
Qed.

(** C1 (amended).  Whenever argument generation returns, every key other
    than the GPU key is set by at most one configure token, and the GPU key
    is set by the fixed default [-DUSE_GPU:STR=No] followed, when the
    [USE_GPU] environment variable is non-empty, by one flag carrying the
    environment's value. *)
Theorem C1_configure_keys h self ext t args :
  configure_args h self ext t = Some args ->
  (forall k, k <> gpu_key -> length (flags_for k args) <= 1)
  /\ flags_for gpu_key args =
       "-DUSE_GPU:STR=No"
         :: optional_flag "-DUSE_GPU:STR=" (environ h !! "USE_GPU").
Proof.
  intros Ha. split.
  - intros k Hk. rewrite <- (flags_for_not_gpu k args Hk).
    apply flags_for_unique_keys.
    exact (configure_args_other_keys h self ext t args Ha).
  - exact (configure_args_gpu_flags h self ext t args Ha).
Qed.

Lemma C1_configure_keys_witness :
  (forall k, k <> gpu_key -> length (flags_for k gpu_args) <= 1)
  /\ flags_for gpu_key gpu_args = ["-DUSE_GPU:STR=No"; "-DUSE_GPU:STR=Yes"].
Proof.
  apply (C1_configure_keys gpu_host (command false None) qulacs_core [] gpu_args).
  vm_compute; reflexivity.
Defined.

(** C2 (as stated, refuted).  On a Linux host where [nproc] exits with
    status 1 the probe does not return: it raises [CalledProcessError] to
    its caller. *)
Lemma C2_probe_raises_on_failed_utility :
  _get_n_cpus (host_of "Linux" ∅ probe_exits_1) "Linux" [] =
    (Raise (CalledProcessError 1 ["nproc"]), [probe_invocation "Linux"])
  /\ ~ exists n_cpus,
        fst (_get_n_cpus (host_of "Linux" ∅ probe_exits_1) "Linux" [])
        = Ok n_cpus.
Proof.
  split; [reflexivity|].
  intros [n Hn]. discriminate Hn.
Qed.

(** C2 (amended).  For every platform name and log: an unrecognised
    platform is probed with the empty command name; when the operating
    system denies the invocation the probe returns the absent value (the
    empty string) and does not raise; when the utility exits with status 0
    and its output, with the surrounding whitespace stripped, is
    well-formed UTF-8, the probe returns that stripped output; when the
    stripped output is not well-formed UTF-8, [UnicodeDecodeError] reaches
    the caller; when the utility exits with another status the
    [CalledProcessError] carrying that status reaches the caller. *)
Theorem C2_probe_outcomes h p t :
  (p <> "Linux" -> p <> "Darwin" -> n_cpus_command p = [""])
  /\ (spawn h t (probe_invocation p) = SpawnFailed PermissionError ->
      _get_n_cpus h p t = (Ok "", t ++ [probe_invocation p]))
  /\ (forall out,
        spawn h t (probe_invocation p) = Exited 0 out ->
        Py.utf8_valid (Py.strip out) = true ->
        _get_n_cpus h p t = (Ok (Py.strip out), t ++ [probe_invocation p]))
  /\ (forall out,
        spawn h t (probe_invocation p) = Exited 0 out ->
        Py.utf8_valid (Py.strip out) = false ->
        _get_n_cpus h p t =
          (Raise UnicodeDecodeError, t ++ [probe_invocation p]))
  /\ (forall rc out,
        rc <> 0%Z ->
        spawn h t (probe_invocation p) = Exited rc out ->
        _get_n_cpus h p t =
          (Raise (CalledProcessError rc (n_cpus_command p)),
           t ++ [probe_invocation p])).
Proof.
  repeat split.
  - intros Hl Hd. unfold n_cpus_command.
    apply String.eqb_neq in Hl, Hd. now rewrite Hl, Hd.
  - apply _get_n_cpus_denied.
  - apply _get_n_cpus_success.
  - apply _get_n_cpus_undecodable.
  - intros rc out. apply _get_n_cpus_nonzero.
Qed.

Lemma C2_probe_outcomes_witness :
  n_cpus_command "FreeBSD" = [""]
  /\ _get_n_cpus (host_of "FreeBSD" ∅ probe_denied) "FreeBSD" [] =
       (Ok "", [probe_invocation "FreeBSD"])
  /\ _get_n_cpus (host_of "Linux" ∅ all_succeed) "Linux" [] =
       (Ok "8", [probe_invocation "Linux"])
  /\ _get_n_cpus (host_of "Linux" ∅ probe_prints_byte_255) "Linux" [] =
       (Raise UnicodeDecodeError, [probe_invocation "Linux"])
  /\ _get_n_cpus (host_of "Darwin" ∅ probe_exits_1) "Darwin" [] =
       (Raise (CalledProcessError 1 ["sysctl"; "-n"; "hw.ncpu"]),
        [probe_invocation "Darwin"]).
Proof.
  split; [|split; [|split; [|split]]].
  - destruct (C2_probe_outcomes (host_of "FreeBSD" ∅ probe_denied) "FreeBSD" [])
      as (Hcmd & _).
    apply Hcmd; discriminate.
  - destruct (C2_probe_outcomes (host_of "FreeBSD" ∅ probe_denied) "FreeBSD" [])
      as (_ & Hdenied & _).
    apply Hdenied. reflexivity.
  - destruct (C2_probe_outcomes (host_of "Linux" ∅ all_succeed) "Linux" [])
      as (_ & _ & Hok & _).
    apply (Hok ("8" +:+ newline)); reflexivity.
  - destruct (C2_probe_outcomes (host_of "Linux" ∅ probe_prints_byte_255)
                                "Linux" [])
      as (_ & _ & _ & Hbad & _).
    apply (Hbad (String (ascii_of_nat 255) newline)); reflexivity.
  - destruct (C2_probe_outcomes (host_of "Darwin" ∅ probe_exits_1) "Darwin" [])
      as (_ & _ & _ & _ & Hfail).
    apply (Hfail 1%Z ""); [lia | reflexivity].
Defined.

(** C3 (the code departs from the claim).  The guard of [_generate_args]
    that reports a missing compiler can never fire, whatever the host: the
    lookups carry a default, so neither is ever [None].  With
    [C_COMPILER] set to the empty string on a Linux host the run succeeds
    and the configure step receives the token [-DCMAKE_C_COMPILER=]. *)
Theorem C3_empty_compiler_reaches_cmake :
  (forall h self ext t msg,
      fst (_generate_args h self ext t) <> Raise (RuntimeError msg))
  /\ fst (run empty_cc_host (command false None) []) = Ok tt
  /\ map inv_argv
         (spawned Configure (snd (run empty_cc_host (command false None) [])))
     = [empty_cc_args].
Proof.
  split; [|split; vm_compute; reflexivity].
  intros h self ext t msg.
  destruct (String.eqb_spec (platform_system h) "Windows") as [Hw | Hw].
  - rewrite (_generate_args_windows h self ext t Hw). discriminate.
  - rewrite (_generate_args_posix h self ext t Hw).
    pose proof (_get_n_cpus_no_RuntimeError h (platform_system h) t msg) as Hp.
    destruct (_get_n_cpus h (platform_system h) t) as [[n|e] t'];
      [discriminate|].
    cbn in *. intros [= ->]. now apply Hp.
Qed.

(** C5.  On a non-Windows host, when the CPU-count probe returns the
    absent value (the empty string), argument generation returns and the
    build arguments end with the bare token [-j], which carries no
    number. *)
Theorem C5_absent_count_gives_bare_j h self ext t t' :
  platform_system h <> "Windows" ->
  _get_n_cpus h (platform_system h) t = (Ok "", t') ->
  _generate_args h self ext t =
    (Ok (["--config"; cfg_of self; "--"; "-j"], posix_flags h self ext), t').
Proof.
  intros Hw Hp. rewrite (_generate_args_posix h self ext t Hw).
  now rewrite Hp.
Qed.

Lemma C5_absent_count_gives_bare_j_witness :
  _generate_args (host_of "FreeBSD" ∅ probe_denied)
                 (command false None) qulacs_core [] =
    (Ok (["--config"; "Release"; "--"; "-j"],
         posix_flags (host_of "FreeBSD" ∅ probe_denied)
                     (command false None) qulacs_core),
     [probe_invocation "FreeBSD"]).
Proof.
  apply (C5_absent_count_gives_bare_j
           (host_of "FreeBSD" ∅ probe_denied) (command false None)
           qulacs_core [] [probe_invocation "FreeBSD"]).
  - discriminate.
  - reflexivity.
Defined.

(** C4 (as stated, refuted).  The caller passes the empty string as the
    explicit optimization flags while the environment holds [-O3]: both
    values are present, yet no optimization flag is emitted. *)
Lemma C4_empty_override_emits_no_flag :
  opt_flags (command false (Some "")) = Some ""
  /\ environ o3_host !! "QULACS_OPT_FLAGS" = Some "-O3"
  /\ configure_args o3_host (command false (Some "")) qulacs_core []
     = Some plain_args
  /\ flags_for opt_key plain_args = []
  /\ length (flags_for opt_key plain_args) <> 1.
Proof.
  repeat split; try (vm_compute; reflexivity).
  vm_compute. lia.
Qed.

(** C4 (amended).  Whenever argument generation returns: if the explicit
    caller-supplied optimization flags are present and non-empty, exactly
    one optimization flag is emitted and it carries the explicit value,
    whatever the environment holds; if neither the explicit value nor the
    environment variable is present, no optimization flag is emitted. *)
Theorem C4_opt_flags_precedence h self ext t args :
  configure_args h self ext t = Some args ->
  (forall f, opt_flags self = Some f -> f <> "" ->
             flags_for opt_key args = ["-DOPT_FLAGS=" +:+ f])
  /\ (opt_flags self = None -> environ h !! "QULACS_OPT_FLAGS" = None ->
      flags_for opt_key args = []).
Proof.
  intros Ha. rewrite (configure_args_opt_flags h self ext t args Ha).
  unfold resolve_opt_flags, os_getenv. split.
  - intros f Hf Hne. rewrite Hf. destruct f as [|c r]; [congruence | reflexivity].
  - intros Hf He. now rewrite Hf, He.
Qed.

Lemma C4_opt_flags_precedence_witness :
  flags_for opt_key (plain_args ++ ["-DOPT_FLAGS=-O2"]) = ["-DOPT_FLAGS=-O2"]
  /\ flags_for opt_key plain_args = [].
Proof.
  split.
  - destruct (C4_opt_flags_precedence
                o3_host (command false (Some "-O2")) qulacs_core []
                (plain_args ++ ["-DOPT_FLAGS=-O2"])) as [Hexplicit _].
    + vm_compute; reflexivity.
    + apply (Hexplicit "-O2"); [reflexivity | discriminate].
  - destruct (C4_opt_flags_precedence
                (host_of "Linux" ∅ all_succeed) (command false None)
                qulacs_core [] plain_args) as [_ Hneither].
    + vm_compute; reflexivity.
    + apply Hneither; reflexivity.
Defined.

(** C10.  When the explicit optimization flags are present but empty, the
    configure arguments are the same for every environment that differs
    only in [QULACS_OPT_FLAGS] (set to any value, or unset), and they hold
    no optimization flag. *)
Theorem C10_empty_override_blocks_environment h self ext t env :
  opt_flags self = Some "" ->
  (forall k, k <> "QULACS_OPT_FLAGS" -> env !! k = environ h !! k) ->
  configure_args (with_environ h env) self ext t = configure_args h self ext t
  /\ forall args, configure_args h self ext t = Some args ->
                  flags_for opt_key args = [].
Proof.
  intros Hf Henv. split.
  - unfold configure_args.
    rewrite (_generate_args_environ h self ext t env)
      by (apply Henv; discriminate).
    destruct (_generate_args h self ext t) as [[args|e] t']; [|reflexivity].
    f_equal. unfold extend_cmake_args, resolve_opt_flags, os_getenv.
    cbn [environ with_environ]. rewrite Hf.
    now rewrite !Henv by discriminate.
  - intros args Ha. rewrite (configure_args_opt_flags h self ext t args Ha).
    unfold resolve_opt_flags. now rewrite Hf.
Qed.

Lemma C10_empty_override_blocks_environment_witness :
  configure_args o3_host (command false (Some "")) qulacs_core []
  = configure_args (host_of "Linux" ∅ all_succeed)
                   (command false (Some "")) qulacs_core []
  /\ flags_for opt_key plain_args = [].
Proof.
  destruct (C10_empty_override_blocks_environment
              (host_of "Linux" ∅ all_succeed) (command false (Some ""))
              qulacs_core [] {[ "QULACS_OPT_FLAGS" := "-O3" ]})
    as [Hsame Hnone].
  - reflexivity.
  - intros k Hk. rewrite lookup_singleton_ne by congruence.
    symmetry. apply lookup_empty.
  - split.
    + exact Hsame.
    + apply Hnone. vm_compute; reflexivity.
Defined.

(** C8.  On a Windows host whose [sys.maxsize] exceeds [2^32], argument
    generation returns and the configure arguments hold the architecture
    flag exactly once: one token [-A], one token [x64], the second right
    after the first.  On every other host neither token occurs in the
    configure arguments, whatever [sys.maxsize] is. *)
Theorem C8_architecture_flag h self ext t :
  (platform_system h = "Windows" -> (sys_maxsize h > 2 ^ 32)%Z ->
   exists args,
     configure_args h self ext t = Some args
     /\ occurrences "-A" args = 1
     /\ occurrences "x64" args = 1
     /\ exists pre post, args = pre ++ ["-A"; "x64"] ++ post)
  /\ (platform_system h <> "Windows" ->
      forall args,
        configure_args h self ext t = Some args ->
        occurrences "-A" args = 0 /\ occurrences "x64" args = 0).
Proof.
  split.
  - intros Hw Hmax. eexists. split; [apply configure_args_windows, Hw|].
    assert (Hgt : (sys_maxsize h >? 2 ^ 32)%Z = true) by (apply Z.gtb_lt; lia).
    unfold windows_flags, fixed_flags, cfg_of. rewrite Hgt.
    split; [|split].
    + destruct (debug self); split_optional_flags; vm_compute; reflexivity.
    + destruct (debug self); split_optional_flags; vm_compute; reflexivity.
    + eexists (_ :: _ :: _ :: _ :: _ :: _ :: _ :: [_]), _. cbn [app].
      reflexivity.
  - intros Hw args Ha.
    apply (configure_args_posix h self ext t args Hw) in Ha. subst args.
    unfold posix_flags, fixed_flags, cfg_of.
    split; destruct (debug self); split_optional_flags; vm_compute; reflexivity.
Qed.

Lemma C8_architecture_flag_witness :
  (exists args,
      configure_args (host_of "Windows" ∅ all_succeed) (command true None)
                     qulacs_core [] = Some args
      /\ occurrences "-A" args = 1
      /\ occurrences "x64" args = 1
      /\ exists pre post, args = pre ++ ["-A"; "x64"] ++ post)
  /\ occurrences "-A" plain_args = 0 /\ occurrences "x64" plain_args = 0.
Proof.
  split.
  - apply (C8_architecture_flag (host_of "Windows" ∅ all_succeed)
             (command true None) qulacs_core []).
    + reflexivity.
    + cbn. lia.
  - apply (C8_architecture_flag (host_of "Linux" ∅ all_succeed)
             (command false None) qulacs_core []).
    + discriminate.
    + vm_compute; reflexivity.
Defined.

(** C9.  Whenever argument generation returns, the configuration name it
    puts after [--config] is [Debug] when the debug option is true and
    [Release] when it is false; a repeated call on the same host, command
    and target, from any later log, yields the same name. *)
Theorem C9_configuration_name h self ext t args t' :
  _generate_args h self ext t = (Ok args, t') ->
  config_name (fst args) = Some (if debug self then "Debug" else "Release")
  /\ forall t2 args2 t2',
       _generate_args h self ext t2 = (Ok args2, t2') ->
       config_name (fst args2) = config_name (fst args).
Proof.
  assert (Hname : forall u a u',
             _generate_args h self ext u = (Ok a, u') ->
             config_name (fst a) = Some (cfg_of self)).
  { intros u a u' Hg.
    destruct (String.eqb_spec (platform_system h) "Windows") as [Hw | Hw].
    - rewrite (_generate_args_windows h self ext u Hw) in Hg.
      injection Hg as <- _. reflexivity.
    - rewrite (_generate_args_posix h self ext u Hw) in Hg.
      destruct (_get_n_cpus h (platform_system h) u) as [[n|e] u1];
        [|discriminate].
      injection Hg as <- _. reflexivity. }
  intros Hg. split.
  - exact (Hname t args t' Hg).
  - intros t2 args2 t2' Hg2.
    now rewrite (Hname t2 args2 t2' Hg2), (Hname t args t' Hg).
Qed.

Lemma C9_configuration_name_witness :
  config_name ["--config"; "Debug"; "--"; "/m"] = Some "Debug"
  /\ forall t2 args2 t2',
       _generate_args (host_of "Windows" ∅ all_succeed) (command true None)
                      qulacs_core t2 = (Ok args2, t2') ->
       config_name (fst args2) = config_name ["--config"; "Debug"; "--"; "/m"].
Proof.
  apply (C9_configuration_name
           (host_of "Windows" ∅ all_succeed) (command true None) qulacs_core []
           (["--config"; "Debug"; "--"; "/m"],
            windows_flags (host_of "Windows" ∅ all_succeed)
                          (command true None) qulacs_core)
           []).
  vm_compute; reflexivity.
Defined.

(** C6 (as stated, refuted).  On a Linux host where [cmake --version]
    starts and exits with status 1 the availability check has failed, yet
    [run] raises the [CalledProcessError] of the check, which names no
    target, and not a [RuntimeError]. *)
Lemma C6_failed_check_names_no_target :
  fst (run (host_of "Linux" ∅ check_exits_1) two_targets []) =
    Raise (CalledProcessError 1 ["cmake"; "--version"])
  /\ forall msg,
       fst (run (host_of "Linux" ∅ check_exits_1) two_targets [])
       <> Raise (RuntimeError msg).
Proof.
  split; [reflexivity|].
  intros msg Hmsg. discriminate Hmsg.
Qed.

(** C6 (amended).  When the availability check cannot start [cmake] (any
    [OSError]), [run] raises one [RuntimeError] whose message names every
    extension of the command; when [cmake --version] starts but exits with
    a non-zero status, [run] raises the [CalledProcessError] of the check
    instead.  In both cases the only invocation added to the log is the
    check itself: no configure and no build subprocess is started. *)
Theorem C6_tool_check_failure h self t :
  (forall e,
      spawn h t tool_check_invocation = SpawnFailed e ->
      fst (run h self t) = Raise (RuntimeError (must_be_installed "CMake" self))
      /\ (forall ext, In ext (extensions self) ->
                      contains (name ext) (must_be_installed "CMake" self))
      /\ exists new,
           snd (run h self t) = t ++ new
           /\ spawned Configure new = [] /\ spawned Build new = [])
  /\ (forall rc out,
        spawn h t tool_check_invocation = Exited rc out ->
        rc <> 0%Z ->
        fst (run h self t) = Raise (CalledProcessError rc ["cmake"; "--version"])
        /\ exists new,
             snd (run h self t) = t ++ new
             /\ spawned Configure new = [] /\ spawned Build new = []).
Proof.
  split.
  - intros e Hs.
    assert (Hrun : run h self t =
                   (Raise (RuntimeError (must_be_installed "CMake" self)),
                    t ++ [tool_check_invocation])).
    { unfold run, bind, try_except, check_output.
      fold tool_check_invocation. now rewrite Hs. }
    rewrite Hrun. split; [reflexivity|]. split.
    + intros ext Hin. unfold must_be_installed.
      apply contains_app_r, contains_app_r, join_contains.
      now apply in_map.
    + exists [tool_check_invocation]. now split.
  - intros rc out Hs Hrc.
    assert (Hrun : run h self t =
                   (Raise (CalledProcessError rc ["cmake"; "--version"]),
                    t ++ [tool_check_invocation])).
    { unfold run, bind, try_except, check_output.
      fold tool_check_invocation. rewrite Hs.
      apply Z.eqb_neq in Hrc. now rewrite Hrc. }
    rewrite Hrun. split; [reflexivity|].
    exists [tool_check_invocation]. now split.
Qed.

Lemma C6_tool_check_failure_witness :
  (fst (run (host_of "Linux" ∅ no_cmake) (command false None) []) =
     Raise (RuntimeError
              "CMake must be installed to build the following extensions: qulacs_core")
   /\ (forall ext, In ext [qulacs_core] ->
                   contains (name ext)
                            (must_be_installed "CMake" (command false None)))
   /\ exists new,
        snd (run (host_of "Linux" ∅ no_cmake) (command false None) []) = [] ++ new
        /\ spawned Configure new = [] /\ spawned Build new = [])
  /\ (fst (run (host_of "Linux" ∅ check_exits_1) (command false None) []) =
        Raise (CalledProcessError 1 ["cmake"; "--version"])
      /\ exists new,
           snd (run (host_of "Linux" ∅ check_exits_1) (command false None) [])
           = [] ++ new
           /\ spawned Configure new = [] /\ spawned Build new = []).
Proof.
  split.
  - destruct (C6_tool_check_failure (host_of "Linux" ∅ no_cmake)
                                    (command false None) []) as [Hos _].
    apply (Hos FileNotFoundError). reflexivity.
  - destruct (C6_tool_check_failure (host_of "Linux" ∅ check_exits_1)
                                    (command false None) []) as [_ Hexit].
    apply (Hexit 1%Z ""); [reflexivity | lia].
Defined.

(** C7.  When argument generation returns and the configure subprocess
    then exits with a non-zero status, [build_extension] raises
    [CalledProcessError] carrying that status and the configure command, the
    loop over the targets of [run] raises the same exception without
    touching the remaining targets, and no build subprocess is among the
    invocations added to the log. *)
Theorem C7_configure_failure_stops_target h self ext rest t args t1 rc out :
  _generate_args h self ext t = (Ok args, t1) ->
  spawn h t1 (configure_invocation h ext (extend_cmake_args h self (snd args)))
  = Exited rc out ->
  rc <> 0%Z ->
  let i := configure_invocation h ext (extend_cmake_args h self (snd args)) in
  build_extension h self ext t =
    (Raise (CalledProcessError rc (inv_argv i)), t1 ++ [i])
  /\ for_each (build_extension h self) (ext :: rest) t =
       (Raise (CalledProcessError rc (inv_argv i)), t1 ++ [i])
  /\ exists new, t1 ++ [i] = t ++ new /\ spawned Build new = [].
Proof.
  intros Hg Hs Hrc i.
  assert (Hb : build_extension h self ext t =
               (Raise (CalledProcessError rc (inv_argv i)), t1 ++ [i])).
  { unfold build_extension, bind. rewrite Hg.
    unfold check_call at 1. subst i. rewrite Hs.
    apply Z.eqb_neq in Hrc. now rewrite Hrc. }
  split; [exact Hb|]. split.
  - cbn [for_each]. unfold bind at 1. now rewrite Hb.
  - destruct (_generate_args_trace h self ext t) as (new & Hnew & _ & Hbuild).
    rewrite Hg in Hnew. cbn [snd] in Hnew. subst t1.
    exists (new ++ [i]). split; [now rewrite app_assoc|].
    unfold spawned in *. rewrite List.filter_app, Hbuild. reflexivity.
Qed.

Lemma C7_configure_failure_stops_target_witness :
  fst (build_extension (host_of "Linux" ∅ configure_exits_2)
                       (command false None) qulacs_core []) =
    Raise (CalledProcessError 2 ("cmake" :: "/src/qulacs" :: plain_args))
  /\ spawned Build
       (snd (build_extension (host_of "Linux" ∅ configure_exits_2)
                             (command false None) qulacs_core [])) = [].
Proof.
  destruct (C7_configure_failure_stops_target
              (host_of "Linux" ∅ configure_exits_2) (command false None)
              qulacs_core [] []
              (["--config"; "Release"; "--"; "-j8"], plain_args)
              [probe_invocation "Linux"] 2 "") as (Hb & _ & _).
  - vm_compute; reflexivity.
  - reflexivity.
  - lia.
  - rewrite Hb. split; vm_compute; reflexivity.
Defined.

(** * Further properties of the code *)

(** ** The log of one target *)

Lemma _generate_args_log h self ext t :
  snd (_generate_args h self ext t) = t ++ probe_log h.
Proof.
  unfold probe_log.
  destruct (String.eqb_spec (platform_system h) "Windows") as [Hw | Hw].
  - rewrite (_generate_args_windows h self ext t Hw). cbn. now rewrite app_nil_r.
  - rewrite (_generate_args_posix h self ext t Hw).
    pose proof (_get_n_cpus_trace h (platform_system h) t) as Ht.
    destruct (_get_n_cpus h (platform_system h) t) as [[n|e] t'];
      cbn in Ht; now subst t'.
Qed.

(** The build arguments always have four tokens. *)
Lemma _generate_args_build_args h self ext t args t1 :
  _generate_args h self ext t = (Ok args, t1) ->
  exists n_tok, fst args = ["--config"; cfg_of self; "--"; n_tok].
Proof.
  destruct (String.eqb_spec (platform_system h) "Windows") as [Hw | Hw].
  - rewrite (_generate_args_windows h self ext t Hw). intros [= <- _]. now eexists.
  - rewrite (_generate_args_posix h self ext t Hw).
    destruct (_get_n_cpus h (platform_system h) t) as [[n|e] t'];
      [|discriminate].
    intros [= <- _]. now eexists.
Qed.

(** [build_extension], case by case. *)
Lemma build_extension_cases h self ext t :
  build_extension h self ext t =
    match _generate_args h self ext t with
    | (Raise e, t1) => (Raise e, t1)
    | (Ok args, t1) =>
        let c := configure_invocation h ext (extend_cmake_args h self (snd args)) in
        let b := build_invocation h (fst args) in
        match spawn h t1 c with
        | SpawnFailed e => (Raise (OSError e), t1 ++ [c])
        | Exited rc _ =>
            if (rc =? 0)%Z then
              match spawn h (t1 ++ [c]) b with
              | SpawnFailed e => (Raise (OSError e), (t1 ++ [c]) ++ [b])
              | Exited rc' _ =>
                  if (rc' =? 0)%Z then (Ok tt, (t1 ++ [c]) ++ [b])
                  else (Raise (CalledProcessError rc' (inv_argv b)),
                        (t1 ++ [c]) ++ [b])
              end
            else (Raise (CalledProcessError rc (inv_argv c)), t1 ++ [c])
        end
    end.
Proof.
  unfold build_extension, bind.
  destruct (_generate_args h self ext t) as [[args|e] t1]; [|reflexivity].
  cbv zeta. unfold check_call at 1.
  destruct (spawn h t1 _) as [rc out | e]; [|reflexivity].
  destruct (rc =? 0)%Z; [|reflexivity].
  unfold check_call.
  destruct (spawn h _ _) as [rc' out' | e']; [|reflexivity].
  destruct (rc' =? 0)%Z; reflexivity.
Qed.

Lemma build_extension_steps h self ext t :
  exists steps,
    snd (build_extension h self ext t) = t ++ probe_log h ++ steps
    /\ target_steps h self ext (fst (build_extension h self ext t)) steps.
Proof.
  rewrite build_extension_cases.
  pose proof (_generate_args_log h self ext t) as Hlog.
  pose proof (_generate_args_build_args h self ext t) as Hargs.
  destruct (_generate_args h self ext t) as [[args|e] t1]; cbn [snd] in Hlog;
    subst t1.
  - destruct (Hargs args _ eq_refl) as [n_tok Hb]. rewrite Hb. cbv zeta.
    destruct (spawn h _ _) as [rc out | e].
    + destruct (rc =? 0)%Z.
      * destruct (spawn h _ _) as [rc' out' | e'];
          [destruct (rc' =? 0)%Z|];
          eexists; (split; [cbn [snd]; rewrite <- !app_assoc; reflexivity|]);
          cbn [fst]; constructor.
      * eexists. split; [cbn [snd]; rewrite <- !app_assoc; reflexivity|].
        cbn [fst]. constructor.
    + eexists. split; [cbn [snd]; rewrite <- !app_assoc; reflexivity|].
      cbn [fst]. constructor.
  - exists []. split; [now rewrite app_nil_r|]. constructor.
Qed.

Lemma for_each_targets_log h self xs t :
  exists new,
    snd (for_each (build_extension h self) xs t) = t ++ new
    /\ targets_log h self xs (fst (for_each (build_extension h self) xs t)) new.
Proof.
  revert t. induction xs as [|ext rest IH]; intros t.
  - exists []. split; [now rewrite app_nil_r | constructor].
  - cbn [for_each]. unfold bind.
    destruct (build_extension_steps h self ext t) as (steps & Hlog & Hsteps).
    destruct (build_extension h self ext t) as [[[]|e] t1];
      cbn [fst snd] in Hlog, Hsteps; subst t1.
    + destruct (IH (t ++ probe_log h ++ steps)) as (more & Hmore & Hrest).
      exists (probe_log h ++ steps ++ more). split.
      * rewrite Hmore. now rewrite <- !app_assoc.
      * now constructor.
    + exists (probe_log h ++ steps). split; [reflexivity|]. now constructor.
Qed.

(** When the tool check passes, [run] is the loop over the targets. *)
Lemma run_tool_available h self t out :
  spawn h t tool_check_invocation = Exited 0 out ->
  run h self t =
    for_each (build_extension h self) (extensions self)
             (t ++ [tool_check_invocation]).
Proof.
  intros Hs. unfold run, bind, try_except, check_output.
  fold tool_check_invocation. now rewrite Hs.
Qed.

(** ** The log of a run *)

Lemma spawned_app s (t1 t2 : trace) :
  spawned s (t1 ++ t2) = spawned s t1 ++ spawned s t2.
Proof. unfold spawned. apply List.filter_app. Qed.

Lemma probe_log_cases h :
  (platform_system h = "Windows" /\ probe_log h = [])
  \/ (platform_system h <> "Windows"
      /\ probe_log h = [probe_invocation (platform_system h)]).
Proof.
  unfold probe_log.
  destruct (String.eqb_spec (platform_system h) "Windows"); [left | right];
    now split.
Qed.

Lemma run_log h self t :
  exists new,
    snd (run h self t) = t ++ tool_check_invocation :: new
    /\ (new = []
        \/ targets_log h self (extensions self) (fst (run h self t)) new).
Proof.
  destruct (spawn h t tool_check_invocation) as [rc out | e] eqn:Hs.
  - destruct (Z.eqb_spec rc 0) as [-> | Hrc].
    + rewrite (run_tool_available h self t out Hs).
      destruct (for_each_targets_log h self (extensions self)
                  (t ++ [tool_check_invocation])) as (new & Hlog & Htargets).
      exists new. split; [|now right].
      rewrite Hlog. now rewrite <- app_assoc.
    + exists []. split; [|now left].
      unfold run, bind, try_except, check_output.
      fold tool_check_invocation. rewrite Hs.
      apply Z.eqb_neq in Hrc. now rewrite Hrc.
  - exists []. split; [|now left].
    unfold run, bind, try_except, check_output.
    fold tool_check_invocation. now rewrite Hs.
Qed.

Lemma targets_log_counts h self xs r new :
  targets_log h self xs r new ->
  spawned ToolCheck new = []
  /\ length (spawned Build new) <= length (spawned Configure new)
  /\ length (spawned Configure new) <= length xs
  /\ length (spawned ProbeCpus new) <= length xs.
Proof.
  induction 1 as [| ext rest r' steps more Hsteps _ IH | ext rest e steps Hsteps].
  - cbn. repeat split; lia.
  - destruct IH as (Hc & Hb & Hn & Hp).
    rewrite !spawned_app, !length_app, Hc.
    inversion Hsteps; subst.
    destruct (probe_log_cases h) as [[_ ->] | [_ ->]]; cbn;
      repeat split; lia.
  - rewrite !spawned_app, !length_app.
    inversion Hsteps; subst;
      destruct (probe_log_cases h) as [[_ ->] | [_ ->]]; cbn;
      repeat split; lia.
Qed.

Lemma targets_log_built h self xs r new :
  targets_log h self xs r new ->
  r = Ok tt ->
  map source_of (spawned Configure new) = map sourcedir xs
  /\ length (spawned Build new) = length xs.
Proof.
  induction 1 as [| ext rest r' steps more Hsteps _ IH | ext rest e steps Hsteps];
    intros Hr.
  - now split.
  - destruct (IH Hr) as [Hsrc Hb].
    rewrite !spawned_app, !map_app, !length_app, Hsrc, Hb.
    inversion Hsteps; subst.
    destruct (probe_log_cases h) as [[_ ->] | [_ ->]]; cbn; now split.
  - discriminate.
Qed.

Lemma targets_log_shape h self xs r new :
  targets_log h self xs r new -> Forall (target_invocation h self) new.
Proof.
  assert (Hprobe : Forall (target_invocation h self) (probe_log h)).
  { destruct (probe_log_cases h) as [[_ ->] | [Hw ->]]; [constructor|].
    constructor; [|constructor]. now split. }
  assert (Hsteps : forall ext res steps,
             target_steps h self ext res steps ->
             Forall (target_invocation h self) steps).
  { intros ext res steps Hs.
    inversion Hs; subst; repeat constructor; cbn; eauto. }
  induction 1 as [| ext rest r' steps more Hs _ IH | ext rest e steps Hs].
  - constructor.
  - rewrite !Forall_app. eauto.
  - rewrite Forall_app. eauto.
Qed.

(** X6.  Whatever the subprocesses do, [run] starts with the
    [cmake --version] check and never repeats it; it starts no more
    configure steps and no more probes than the command has targets, and no
    more build steps than configure steps. *)
Theorem run_log_invariant h self t :
  exists new,
    snd (run h self t) = t ++ tool_check_invocation :: new
    /\ spawned ToolCheck new = []
    /\ length (spawned Build new) <= length (spawned Configure new)
    /\ length (spawned Configure new) <= length (extensions self)
    /\ length (spawned ProbeCpus new) <= length (extensions self).
Proof.
  destruct (run_log h self t) as (new & Hlog & [-> | Htargets]).
  - exists []. split; [exact Hlog|]. cbn. repeat split; lia.
  - exists new. split; [exact Hlog|].
    exact (targets_log_counts h self _ _ new Htargets).
Qed.

(** X7.  When [run] returns normally, it has started exactly one
    configure step per target, on the source directories of the targets in
    their order, and exactly one build step per target. *)
Theorem run_success_accounting h self t :
  fst (run h self t) = Ok tt ->
  exists new,
    snd (run h self t) = t ++ tool_check_invocation :: new
    /\ map source_of (spawned Configure new) = map sourcedir (extensions self)
    /\ length (spawned Build new) = length (extensions self).
Proof.
  intros Hok.
  destruct (run_log h self t) as (new & Hlog & Hnew).
  exists new. split; [exact Hlog|].
  destruct (spawn h t tool_check_invocation) as [rc out | e] eqn:Hs.
  - destruct (Z.eqb_spec rc 0) as [-> | Hrc].
    + destruct Hnew as [-> | Htargets].
      * rewrite (run_tool_available h self t out Hs) in Hlog, Hok.
        destruct (for_each_targets_log h self (extensions self)
                    (t ++ [tool_check_invocation])) as (new & Hlog' & Htargets).
        rewrite Hlog in Hlog'. rewrite <- app_assoc in Hlog'.
        apply app_inv_head in Hlog'. injection Hlog' as <-.
        rewrite Hok in Htargets.
        exact (targets_log_built h self _ _ [] Htargets eq_refl).
      * exact (targets_log_built h self _ _ new Htargets Hok).
    + exfalso. revert Hok. unfold run, bind, try_except, check_output.
      fold tool_check_invocation. rewrite Hs.
      apply Z.eqb_neq in Hrc. now rewrite Hrc.
  - exfalso. revert Hok. unfold run, bind, try_except, check_output.
    fold tool_check_invocation. now rewrite Hs.
Qed.

Lemma run_success_accounting_witness :
  exists new,
    snd (run (host_of "Linux" ∅ all_succeed) two_targets []) =
      [] ++ tool_check_invocation :: new
    /\ map source_of (spawned Configure new) = ["/src/qulacs"; "/src/extra"]
    /\ length (spawned Build new) = 2.
Proof.
  apply (run_success_accounting (host_of "Linux" ∅ all_succeed) two_targets []).
  vm_compute; reflexivity.
Defined.

(** X15.  Every invocation [run] makes after the tool check is a probe,
    a configure step or a build step of the expected shape: a probe on a
    non-Windows host only; configure and build steps in the directory
    [build] under the working directory; the configure step with the
    extended environment and a command line [cmake <source> ...]; the build
    step with the inherited environment and the command line
    [cmake --build . --target python --config <cfg> -- <token>]. *)
Theorem run_invocations_shape h self t :
  exists new,
    snd (run h self t) = t ++ tool_check_invocation :: new
    /\ Forall (target_invocation h self) new.
Proof.
  destruct (run_log h self t) as (new & Hlog & [-> | Htargets]).
  - exists []. split; [exact Hlog | constructor].
  - exists new. split; [exact Hlog|].
    exact (targets_log_shape h self _ _ new Htargets).
Qed.

(** X4.  On a Windows host [run] never starts the CPU-count probe,
    whatever the subprocesses do. *)
Theorem windows_never_probes h self t :
  platform_system h = "Windows" ->
  exists new,
    snd (run h self t) = t ++ tool_check_invocation :: new
    /\ spawned ProbeCpus new = [].
Proof.
  intros Hw.
  destruct (run_log h self t) as (new & Hlog & Hnew).
  exists new. split; [exact Hlog|].
  assert (Hshape : Forall (target_invocation h self) new).
  { destruct Hnew as [-> | Htargets]; [constructor|].
    exact (targets_log_shape h self _ _ new Htargets). }
  clear Hlog Hnew. induction Hshape as [|i new Hi _ IH]; [reflexivity|].
  unfold spawned in *. cbn [List.filter].
  unfold target_invocation in Hi.
  destruct (inv_site i); cbn [call_site_eqb]; try exact IH.
  now destruct Hi.
Qed.

Lemma windows_never_probes_witness :
  exists new,
    snd (run (host_of "Windows" ∅ all_succeed) two_targets []) =
      [] ++ tool_check_invocation :: new
    /\ spawned ProbeCpus new = [].
Proof.
  apply (windows_never_probes (host_of "Windows" ∅ all_succeed) two_targets []).
  reflexivity.
Defined.

(** X8.  When [cmake --version] starts but exits with a non-zero
    status, [run] raises the [CalledProcessError] of the check itself, not
    the [RuntimeError] that names the targets, and touches no target. *)
Theorem tool_check_nonzero_exit h self t rc out :
  spawn h t tool_check_invocation = Exited rc out ->
  rc <> 0%Z ->
  run h self t =
    (Raise (CalledProcessError rc ["cmake"; "--version"]),
     t ++ [tool_check_invocation]).
Proof.
  intros Hs Hrc. unfold run, bind, try_except, check_output.
  fold tool_check_invocation. rewrite Hs.
  apply Z.eqb_neq in Hrc. now rewrite Hrc.
Qed.

Lemma tool_check_nonzero_exit_witness :
  run (host_of "Linux" ∅ check_exits_1) two_targets [] =
    (Raise (CalledProcessError 1 ["cmake"; "--version"]),
     [] ++ [tool_check_invocation]).
Proof.
  apply (tool_check_nonzero_exit (host_of "Linux" ∅ check_exits_1)
                                 two_targets [] 1 "").
  - reflexivity.
  - lia.
Defined.

(** X17.  The loop of [run] stops at the first target whose build
    raises: the exception and the log are those of that target, and the
    targets after it are never started. *)
Theorem first_failure_stops_run h self before ext after t t1 e t2 :
  for_each (build_extension h self) before t = (Ok tt, t1) ->
  build_extension h self ext t1 = (Raise e, t2) ->
  for_each (build_extension h self) (before ++ ext :: after) t = (Raise e, t2).
Proof.
  revert t. induction before as [|x before IH]; intros t Hbefore Hext.
  - injection Hbefore as <-. cbn [app for_each]. unfold bind. now rewrite Hext.
  - cbn [app for_each] in *. unfold bind in *.
    destruct (build_extension h self x t) as [[[]|e'] t'];
      [|discriminate].
    now apply IH.
Qed.

Lemma first_failure_stops_run_witness :
  for_each (build_extension (host_of "Linux" ∅ second_configure_fails)
                            two_targets)
           ([qulacs_core] ++ second_ext :: [qulacs_core]) [] =
    (Raise (CalledProcessError 2 ("cmake" :: "/src/extra" :: plain_args)),
     snd (build_extension (host_of "Linux" ∅ second_configure_fails)
            two_targets second_ext
            (snd (build_extension (host_of "Linux" ∅ second_configure_fails)
                    two_targets qulacs_core [])))).
Proof.
  apply (first_failure_stops_run
           (host_of "Linux" ∅ second_configure_fails) two_targets
           [qulacs_core] second_ext [qulacs_core] []
           (snd (build_extension (host_of "Linux" ∅ second_configure_fails)
                   two_targets qulacs_core []))).
  - vm_compute; reflexivity.
  - vm_compute; reflexivity.
Defined.

(** ** The probe and the targets *)

(** X1.  The probe returns exactly when the operating system denies the
    invocation with a permission error, or the utility exits with status 0
    and its stripped output is well-formed UTF-8; in every other case
    (utility missing, another [OSError], non-zero exit, output that cannot
    be decoded) it raises to its caller. *)
Theorem probe_returns_iff h p t :
  (exists n_cpus, fst (_get_n_cpus h p t) = Ok n_cpus)
  <-> (spawn h t (probe_invocation p) = SpawnFailed PermissionError
       \/ exists out,
            spawn h t (probe_invocation p) = Exited 0 out
            /\ Py.utf8_valid (Py.strip out) = true).
Proof.
  unfold _get_n_cpus, try_except, bind, check_output, decode_utf8.
  fold (probe_invocation p).
  destruct (spawn h t (probe_invocation p)) as [rc out | e].
  - destruct (Z.eqb_spec rc 0) as [-> | Hrc].
    + destruct (Py.utf8_valid (Py.strip out)) eqn:Hv; cbn.
      * split; eauto.
      * split; [intros [n Hn]; discriminate|].
        intros [Hd | (out' & Ho & Hv')]; [discriminate|].
        injection Ho as <-. congruence.
    + cbn. split; [intros [n Hn]; discriminate|].
      intros [Hd | (out' & Ho & _)]; [discriminate | congruence].
  - destruct e; cbn; split; eauto;
      try (intros [n Hn]; discriminate);
      intros [Hd | (out' & Ho & _)]; discriminate.
Qed.

Lemma append_cons c (r x : string) : String c r +:+ x = String c (r +:+ x).
Proof. reflexivity. Qed.

Lemma rstrip_newline (s : string) :
  no_space s = true -> Py.rstrip (s +:+ newline) = s.
Proof.
  induction s as [|c r IH]; [reflexivity|].
  cbn [no_space]. intros [Hc Hr]%andb_prop.
  rewrite append_cons. cbn [Py.rstrip]. rewrite (IH Hr).
  apply negb_true_iff in Hc. rewrite Hc. now destruct r.
Qed.

Lemma strip_newline (s : string) :
  no_space s = true -> Py.strip (s +:+ newline) = s.
Proof.
  intros Hs. unfold Py.strip.
  destruct s as [|c r]; [reflexivity|].
  rewrite append_cons. cbn [Py.lstrip].
  cbn [no_space] in Hs. apply andb_prop in Hs as [Hc Hr].
  apply negb_true_iff in Hc. rewrite Hc.
  rewrite <- append_cons. apply rstrip_newline.
  cbn [no_space]. now rewrite Hc, Hr.
Qed.

(** X2.  On a non-Windows host, when the utility prints a count that is
    well-formed UTF-8 without whitespace, followed by a newline, the
    parallelism token of the build arguments is [-j] immediately followed
    by that count: the newline does not reach the command line. *)
Theorem printed_count_reaches_build_args h self ext t n_cpus :
  platform_system h <> "Windows" ->
  no_space n_cpus = true ->
  Py.utf8_valid n_cpus = true ->
  spawn h t (probe_invocation (platform_system h))
  = Exited 0 (n_cpus +:+ newline) ->
  _generate_args h self ext t =
    (Ok (["--config"; cfg_of self; "--"; "-j" +:+ n_cpus],
         posix_flags h self ext),
     t ++ [probe_invocation (platform_system h)]).
Proof.
  intros Hw Hn Hv Hs. rewrite (_generate_args_posix h self ext t Hw).
  rewrite (_get_n_cpus_success h (platform_system h) t _ Hs);
    rewrite (strip_newline n_cpus Hn); [reflexivity | exact Hv].
Qed.

Lemma printed_count_reaches_build_args_witness :
  _generate_args (host_of "Linux" ∅ all_succeed) (command false None)
                 qulacs_core [] =
    (Ok (["--config"; "Release"; "--"; "-j" +:+ "8"],
         posix_flags (host_of "Linux" ∅ all_succeed) (command false None)
                     qulacs_core),
     [] ++ [probe_invocation "Linux"]).
Proof.
  apply (printed_count_reaches_build_args
           (host_of "Linux" ∅ all_succeed) (command false None) qulacs_core []
           "8").
  - discriminate.
  - reflexivity.
  - reflexivity.
  - reflexivity.
Defined.

(** X3.  On a non-Windows host, when the probe cannot be started for a
    reason other than a permission error (for instance the utility is not
    installed), [build_extension] raises that [OSError] and starts neither
    the configure nor the build step. *)
Theorem probe_failure_aborts_target h self ext t e :
  platform_system h <> "Windows" ->
  spawn h t (probe_invocation (platform_system h)) = SpawnFailed e ->
  e <> PermissionError ->
  build_extension h self ext t =
    (Raise (OSError e), t ++ [probe_invocation (platform_system h)]).
Proof.
  intros Hw Hs He. rewrite build_extension_cases.
  rewrite (_generate_args_posix h self ext t Hw).
  unfold _get_n_cpus, try_except, bind, check_output.
  fold (probe_invocation (platform_system h)). rewrite Hs.
  destruct e; [contradiction | reflexivity | reflexivity].
Qed.

Lemma probe_failure_aborts_target_witness :
  build_extension (host_of "Linux" ∅ probe_missing) (command false None)
                  qulacs_core [] =
    (Raise (OSError FileNotFoundError), [] ++ [probe_invocation "Linux"]).
Proof.
  apply (probe_failure_aborts_target
           (host_of "Linux" ∅ probe_missing) (command false None)
           qulacs_core [] FileNotFoundError).
  - discriminate.
  - reflexivity.
  - discriminate.
Defined.

(** X5.  When argument generation returns and the configure step exits
    with status 0 but the build step exits with a non-zero status,
    [build_extension] raises [CalledProcessError] carrying that status and
    the build command line, after both steps were logged in that order. *)
Theorem build_failure_propagates h self ext t args t1 out rc out' :
  _generate_args h self ext t = (Ok args, t1) ->
  let c := configure_invocation h ext (extend_cmake_args h self (snd args)) in
  let b := build_invocation h (fst args) in
  spawn h t1 c = Exited 0 out ->
  spawn h (t1 ++ [c]) b = Exited rc out' ->
  rc <> 0%Z ->
  build_extension h self ext t =
    (Raise (CalledProcessError rc
              (["cmake"; "--build"; "."; "--target"; "python"] ++ fst args)),
     t1 ++ [c; b]).
Proof.
  intros Hg c b Hc Hb Hrc. rewrite build_extension_cases, Hg.
  cbv zeta. fold c b. rewrite Hc. cbn [Z.eqb]. rewrite Hb.
  apply Z.eqb_neq in Hrc. rewrite Hrc. now rewrite <- app_assoc.
Qed.

Lemma build_failure_propagates_witness :
  fst (build_extension (host_of "Linux" ∅ build_exits_3) (command false None)
                       qulacs_core []) =
    Raise (CalledProcessError 3
             ["cmake"; "--build"; "."; "--target"; "python";
              "--config"; "Release"; "--"; "-j8"]).
Proof.
  rewrite (build_failure_propagates
             (host_of "Linux" ∅ build_exits_3) (command false None)
             qulacs_core []
             (["--config"; "Release"; "--"; "-j8"], plain_args)
             [probe_invocation "Linux"] "" 3 "").
  - reflexivity.
  - vm_compute; reflexivity.
  - reflexivity.
  - reflexivity.
  - lia.
Defined.

(** ** The configure arguments *)

Ltac by_platform h self ext t Ha :=
  let Hw := fresh "Hw" in
  destruct (String.eqb_spec (platform_system h) "Windows") as [Hw | Hw];
  [ rewrite (configure_args_windows h self ext t Hw) in Ha;
    injection Ha as <-;
    unfold windows_flags, fixed_flags, cfg_of
  | apply (configure_args_posix h self ext t _ Hw) in Ha; subst;
    unfold posix_flags, fixed_flags, cfg_of ].

(** X9.  With no explicit optimization flags, the environment decides:
    a non-empty [QULACS_OPT_FLAGS] gives exactly one optimization flag
    carrying its value, an empty one gives none. *)
Theorem environment_opt_flags h self ext t args :
  configure_args h self ext t = Some args ->
  opt_flags self = None ->
  (forall v, environ h !! "QULACS_OPT_FLAGS" = Some v -> v <> "" ->
             flags_for opt_key args = ["-DOPT_FLAGS=" +:+ v])
  /\ (environ h !! "QULACS_OPT_FLAGS" = Some "" -> flags_for opt_key args = []).
Proof.
  intros Ha Hf. rewrite (configure_args_opt_flags h self ext t args Ha).
  unfold resolve_opt_flags, os_getenv. rewrite Hf. split.
  - intros v Hv Hne. rewrite Hv. destruct v as [|c r]; [congruence | reflexivity].
  - intros Hv. now rewrite Hv.
Qed.

Lemma environment_opt_flags_witness :
  flags_for opt_key (plain_args ++ ["-DOPT_FLAGS=-O3"]) = ["-DOPT_FLAGS=-O3"].
Proof.
  destruct (environment_opt_flags o3_host (command false None) qulacs_core []
              (plain_args ++ ["-DOPT_FLAGS=-O3"])) as [Hset _].
  - vm_compute; reflexivity.
  - reflexivity.
  - apply (Hset "-O3"); [reflexivity | discriminate].
Defined.

(** X10.  The parallel-execution backend flag is emitted exactly once,
    with the value of [USE_OMP], when that variable is non-empty, and not at
    all when it is unset or empty. *)
Theorem omp_flag h self ext t args :
  configure_args h self ext t = Some args ->
  (forall v, environ h !! "USE_OMP" = Some v -> v <> "" ->
             flags_for "-DUSE_OMP:STR" args = ["-DUSE_OMP:STR=" +:+ v])
  /\ (environ h !! "USE_OMP" = None \/ environ h !! "USE_OMP" = Some "" ->
      flags_for "-DUSE_OMP:STR" args = []).
Proof.
  intros Ha.
  assert (Hflags : flags_for "-DUSE_OMP:STR" args =
                   optional_flag "-DUSE_OMP:STR=" (environ h !! "USE_OMP")).
  { by_platform h self ext t Ha.
    - destruct (debug self), (sys_maxsize h >? 2 ^ 32)%Z;
        split_optional_flags; vm_compute; reflexivity.
    - destruct (debug self); split_optional_flags; vm_compute; reflexivity. }
  rewrite Hflags. split.
  - intros v Hv Hne. rewrite Hv. destruct v as [|c r]; [congruence | reflexivity].
  - intros [Hv | Hv]; now rewrite Hv.
Qed.

Lemma omp_flag_witness :
  flags_for "-DUSE_OMP:STR" (plain_args ++ ["-DUSE_OMP:STR=Yes"])
  = ["-DUSE_OMP:STR=Yes"]
  /\ flags_for "-DUSE_OMP:STR" plain_args = [].
Proof.
  split.
  - destruct (omp_flag (host_of "Linux" {[ "USE_OMP" := "Yes" ]} all_succeed)
                (command false None) qulacs_core []
                (plain_args ++ ["-DUSE_OMP:STR=Yes"])) as [Hset _].
    + vm_compute; reflexivity.
    + apply (Hset "Yes"); [reflexivity | discriminate].
  - destruct (omp_flag (host_of "Linux" ∅ all_succeed)
                (command false None) qulacs_core [] plain_args) as [_ Hunset].
    + vm_compute; reflexivity.
    + apply Hunset. left. reflexivity.
Defined.

(** X11.  The compiler and build-type flags belong to the non-Windows
    hosts: there each occurs exactly once, the compilers being the
    [C_COMPILER] and [CXX_COMPILER] overrides or else [gcc] and [g++], the
    build type being the configuration name; on Windows none of the three
    occurs. *)
Theorem compiler_flags h self ext t args :
  configure_args h self ext t = Some args ->
  (platform_system h <> "Windows" ->
   flags_for "-DCMAKE_C_COMPILER" args =
     ["-DCMAKE_C_COMPILER=" +:+ default "gcc" (environ h !! "C_COMPILER")]
   /\ flags_for "-DCMAKE_CXX_COMPILER" args =
        ["-DCMAKE_CXX_COMPILER=" +:+ default "g++" (environ h !! "CXX_COMPILER")]
   /\ flags_for "-DCMAKE_BUILD_TYPE" args =
        ["-DCMAKE_BUILD_TYPE=" +:+ (if debug self then "Debug" else "Release")])
  /\ (platform_system h = "Windows" ->
      flags_for "-DCMAKE_C_COMPILER" args = []
      /\ flags_for "-DCMAKE_CXX_COMPILER" args = []
      /\ flags_for "-DCMAKE_BUILD_TYPE" args = []).
Proof.
  intros Ha. by_platform h self ext t Ha.
  - split; [congruence|]. intros _.
    destruct (debug self), (sys_maxsize h >? 2 ^ 32)%Z;
      split_optional_flags; repeat split; vm_compute; reflexivity.
  - split; [|congruence]. intros _.
    generalize (default "gcc" (environ h !! "C_COMPILER")).
    generalize (default "g++" (environ h !! "CXX_COMPILER")).
    intros gxx gcc.
    destruct (debug self); split_optional_flags;
      repeat split; vm_compute; reflexivity.
Qed.

Lemma compiler_flags_witness :
  (flags_for "-DCMAKE_C_COMPILER" plain_args = ["-DCMAKE_C_COMPILER=gcc"]
   /\ flags_for "-DCMAKE_CXX_COMPILER" plain_args = ["-DCMAKE_CXX_COMPILER=g++"]
   /\ flags_for "-DCMAKE_BUILD_TYPE" plain_args = ["-DCMAKE_BUILD_TYPE=Release"])
  /\ (flags_for "-DCMAKE_C_COMPILER"
        (windows_flags (host_of "Windows" ∅ all_succeed) (command true None)
                       qulacs_core) = []
      /\ flags_for "-DCMAKE_CXX_COMPILER"
           (windows_flags (host_of "Windows" ∅ all_succeed) (command true None)
                          qulacs_core) = []
      /\ flags_for "-DCMAKE_BUILD_TYPE"
           (windows_flags (host_of "Windows" ∅ all_succeed) (command true None)
                          qulacs_core) = []).
Proof.
  split.
  - destruct (compiler_flags (host_of "Linux" ∅ all_succeed)
                (command false None) qulacs_core [] plain_args) as [Hposix _].
    + vm_compute; reflexivity.
    + apply Hposix. discriminate.
  - destruct (compiler_flags (host_of "Windows" ∅ all_succeed)
                (command true None) qulacs_core []
                (windows_flags (host_of "Windows" ∅ all_succeed)
                               (command true None) qulacs_core))
      as [_ Hwin].
    + vm_compute; reflexivity.
    + apply Hwin. reflexivity.
Defined.

(** X12.  On a Windows host whose [sys.maxsize] does not exceed [2^32]
    (the bound itself included), the configure arguments hold neither [-A]
    nor [x64]. *)
Theorem no_architecture_flag_at_or_below_bound h self ext t args :
  platform_system h = "Windows" ->
  (sys_maxsize h <= 2 ^ 32)%Z ->
  configure_args h self ext t = Some args ->
  occurrences "-A" args = 0 /\ occurrences "x64" args = 0.
Proof.
  intros Hw Hmax Ha.
  rewrite (configure_args_windows h self ext t Hw) in Ha. injection Ha as <-.
  assert (Hgt : (sys_maxsize h >? 2 ^ 32)%Z = false).
  { destruct (Z.gtb_spec (sys_maxsize h) (2 ^ 32)); [lia | reflexivity]. }
  unfold windows_flags, fixed_flags, cfg_of. rewrite Hgt.
  destruct (debug self); split_optional_flags; split; vm_compute; reflexivity.
Qed.

Lemma no_architecture_flag_at_or_below_bound_witness :
  occurrences "-A" (windows_flags windows_at_bound (command false None)
                                  qulacs_core) = 0
  /\ occurrences "x64" (windows_flags windows_at_bound (command false None)
                                      qulacs_core) = 0.
Proof.
  apply (no_architecture_flag_at_or_below_bound
           windows_at_bound (command false None) qulacs_core []).
  - reflexivity.
  - cbn. lia.
  - vm_compute; reflexivity.
Defined.

(** X13.  On Windows the library and the runtime output directories
    are also given per configuration, under the upper-cased name of the
    resolved configuration and for that configuration only, and both point
    to the directory of the extension module; on other hosts no
    per-configuration flag is emitted. *)
Theorem per_configuration_output_flags h self ext t args :
  configure_args h self ext t = Some args ->
  let extdir := ext_output_dir self (name ext) in
  let on (b : bool) (flag : string) : list string :=
    if b then [flag +:+ "=" +:+ extdir] else [] in
  let windows := String.eqb (platform_system h) "Windows" in
  flags_for "-DCMAKE_LIBRARY_OUTPUT_DIRECTORY_DEBUG" args =
    on (windows && debug self) "-DCMAKE_LIBRARY_OUTPUT_DIRECTORY_DEBUG"
  /\ flags_for "-DCMAKE_RUNTIME_OUTPUT_DIRECTORY_DEBUG" args =
       on (windows && debug self) "-DCMAKE_RUNTIME_OUTPUT_DIRECTORY_DEBUG"
  /\ flags_for "-DCMAKE_LIBRARY_OUTPUT_DIRECTORY_RELEASE" args =
       on (windows && negb (debug self))
          "-DCMAKE_LIBRARY_OUTPUT_DIRECTORY_RELEASE"
  /\ flags_for "-DCMAKE_RUNTIME_OUTPUT_DIRECTORY_RELEASE" args =
       on (windows && negb (debug self))
          "-DCMAKE_RUNTIME_OUTPUT_DIRECTORY_RELEASE".
Proof.
  intros Ha extdir on windows. subst on windows extdir.
  by_platform h self ext t Ha.
  - generalize (ext_output_dir self (name ext)). intros extdir.
    destruct (debug self), (sys_maxsize h >? 2 ^ 32)%Z;
      split_optional_flags; repeat split; vm_compute; reflexivity.
  - generalize (ext_output_dir self (name ext))
               (default "gcc" (environ h !! "C_COMPILER"))
               (default "g++" (environ h !! "CXX_COMPILER")).
    intros extdir gcc gxx.
    destruct (debug self); split_optional_flags;
      repeat split; vm_compute; reflexivity.
Qed.

Lemma per_configuration_output_flags_witness :
  flags_for "-DCMAKE_LIBRARY_OUTPUT_DIRECTORY_DEBUG"
            (windows_flags (host_of "Windows" ∅ all_succeed)
                           (command true None) qulacs_core)
  = ["-DCMAKE_LIBRARY_OUTPUT_DIRECTORY_DEBUG=/src/qulacs/build/lib"].
Proof.
  destruct (per_configuration_output_flags
              (host_of "Windows" ∅ all_succeed) (command true None)
              qulacs_core []
              (windows_flags (host_of "Windows" ∅ all_succeed)
                             (command true None) qulacs_core))
    as [Hlib _].
  - vm_compute; reflexivity.
  - exact Hlib.
Defined.

(** X14.  On every host and for every environment, the configure
    arguments name each fixed location exactly once: archives go to [lib]
    and executables to [bin] under the working directory, the extension
    module to its setuptools directory, the interpreter is
    [sys.executable], and the packaging marker is set to [Yes]. *)
Theorem fixed_location_flags h self ext t args :
  configure_args h self ext t = Some args ->
  flags_for "-DCMAKE_ARCHIVE_OUTPUT_DIRECTORY" args =
    ["-DCMAKE_ARCHIVE_OUTPUT_DIRECTORY=" +:+ path_join h (getcwd h) "lib"]
  /\ flags_for "-DCMAKE_LIBRARY_OUTPUT_DIRECTORY" args =
       ["-DCMAKE_LIBRARY_OUTPUT_DIRECTORY=" +:+ ext_output_dir self (name ext)]
  /\ flags_for "-DCMAKE_RUNTIME_OUTPUT_DIRECTORY" args =
       ["-DCMAKE_RUNTIME_OUTPUT_DIRECTORY=" +:+ path_join h (getcwd h) "bin"]
  /\ flags_for "-DPYTHON_EXECUTABLE" args =
       ["-DPYTHON_EXECUTABLE=" +:+ sys_executable h]
  /\ flags_for "-DPYTHON_SETUP_FLAG:STR" args = ["-DPYTHON_SETUP_FLAG:STR=Yes"].
Proof.
  intros Ha.
  by_platform h self ext t Ha.
  - generalize (path_join h (getcwd h) "lib") (path_join h (getcwd h) "bin")
               (sys_executable h) (ext_output_dir self (name ext)).
    intros lib bin exe extdir.
    destruct (debug self), (sys_maxsize h >? 2 ^ 32)%Z;
      split_optional_flags; repeat split; vm_compute; reflexivity.
  - generalize (path_join h (getcwd h) "lib") (path_join h (getcwd h) "bin")
               (sys_executable h) (ext_output_dir self (name ext))
               (default "gcc" (environ h !! "C_COMPILER"))
               (default "g++" (environ h !! "CXX_COMPILER")).
    intros lib bin exe extdir gcc gxx.
    destruct (debug self); split_optional_flags;
      repeat split; vm_compute; reflexivity.
Qed.

Lemma fixed_location_flags_witness :
  flags_for "-DCMAKE_ARCHIVE_OUTPUT_DIRECTORY" plain_args =
    ["-DCMAKE_ARCHIVE_OUTPUT_DIRECTORY=/src/qulacs/lib"]
  /\ flags_for "-DCMAKE_LIBRARY_OUTPUT_DIRECTORY" plain_args =
       ["-DCMAKE_LIBRARY_OUTPUT_DIRECTORY=/src/qulacs/build/lib"]
  /\ flags_for "-DCMAKE_RUNTIME_OUTPUT_DIRECTORY" plain_args =
       ["-DCMAKE_RUNTIME_OUTPUT_DIRECTORY=/src/qulacs/bin"]
  /\ flags_for "-DPYTHON_EXECUTABLE" plain_args =
       ["-DPYTHON_EXECUTABLE=/usr/bin/python3"]
  /\ flags_for "-DPYTHON_SETUP_FLAG:STR" plain_args =
       ["-DPYTHON_SETUP_FLAG:STR=Yes"].
Proof.
  apply (fixed_location_flags (host_of "Linux" ∅ all_succeed)
                              (command false None) qulacs_core [] plain_args).
  vm_compute; reflexivity.
Defined.

Lemma configure_env_lookup h :
  (forall k, k <> "CXXFLAGS" -> configure_env h !! k = environ h !! k)
  /\ configure_env h !! "CXXFLAGS" =
       Some (default "" (environ h !! "CXXFLAGS")
               +:+ " -DVERSION_INFO=\" +:+ dquote +:+ "0.2.0\" +:+ dquote).
Proof.
  unfold configure_env. split.
  - intros k Hk. now rewrite lookup_insert_ne.
  - now rewrite lookup_insert_eq.
Qed.

(** X16.  Every configure subprocess that [run] starts, whatever the
    other subprocesses do, is handed an explicit environment that differs
    from the process environment in [CXXFLAGS] only: there it keeps the
    caller's flags (none when unset) and gains the define of the package
    version.  Every build subprocess inherits the process environment. *)
Theorem configure_step_environment h self t :
  exists new,
    snd (run h self t) = t ++ tool_check_invocation :: new
    /\ forall i,
         In i new ->
         (inv_site i = Configure ->
          exists env,
            inv_env i = Some env
            /\ (forall k, k <> "CXXFLAGS" -> env !! k = environ h !! k)
            /\ env !! "CXXFLAGS" =
                 Some (default "" (environ h !! "CXXFLAGS")
                         +:+ " -DVERSION_INFO=\" +:+ dquote
                         +:+ "0.2.0\" +:+ dquote))
         /\ (inv_site i = Build -> inv_env i = None).
Proof.
  destruct (run_log h self t) as (new & Hlog & Hnew).
  exists new. split; [exact Hlog|].
  assert (Hshape : Forall (target_invocation h self) new).
  { destruct Hnew as [-> | Htargets]; [constructor|].
    exact (targets_log_shape h self _ _ new Htargets). }
  intros i Hin.
  apply (proj1 (List.Forall_forall _ _) Hshape) in Hin.
  unfold target_invocation in Hin. split; intros Hsite; rewrite Hsite in Hin.
  - destruct Hin as (_ & Henv & _). exists (configure_env h).
    split; [exact Henv|]. apply configure_env_lookup.
  - now destruct Hin as (_ & Henv & _).
Qed.
